(** * Street-sweep sign-up tracker: pricing policy, aggregation and store

    A shallow embedding of the business logic of the two [App.jsx]
    variants of the repository, [src/src/App.jsx] and
    [src/src/src/App.jsx] (the tiered exchange-rate resolver
    [mdtgRateOf], the prepayment resolver [mdtgPrepayOf], the event
    aggregator [calcStats], the quorum progress of [ProgressBar], the
    quick converter [QuickCalc], the CSV field serializer [safeCSV], the
    store updates and the backup import handler [importJSON]), followed
    by the properties the specification states about them.

    Layout: texts and the conversion of a text to a number; the numbers
    of the engine ([Binary64]); idealised numbers ([JS]) for what rests
    on comparisons and on the shape of the data; the data model; one
    module per source file ([App], [SrcApp]); the functions that produce
    figures, computed on doubles ([App64]); then the lemmas. *)

From Stdlib Require Import ZArith QArith Qcanon Qround SpecFloat.
From Stdlib Require Import List String Ascii Bool Lia Lqa.
Import ListNotations.

(** ** Texts

    A JavaScript string is modelled by the bytes of its UTF-8 encoding;
    [code_points] reads them back as characters.  A byte sequence that is
    not well formed is read as values that are no Unicode character. *)
Module Text.

Definition continuation (c : ascii) : option N :=
  let n := N_of_ascii c in
  if ((128 <=? n) && (n <? 192))%N then Some (n - 128)%N else None.

Definition not_a_character (c : ascii) : N := (1114112 + N_of_ascii c)%N.

Fixpoint code_points (l : list ascii) : list N :=
  match l with
  | [] => []
  | c1 :: l1 =>
      let n1 := N_of_ascii c1 in
      if (n1 <? 128)%N then n1 :: code_points l1
      else
        match l1 with
        | c2 :: l2 =>
            match continuation c2 with
            | Some n2 =>
                if ((194 <=? n1) && (n1 <? 224))%N
                then ((n1 - 192) * 64 + n2)%N :: code_points l2
                else
                  match l2 with
                  | c3 :: l3 =>
                      match continuation c3 with
                      | Some n3 =>
                          if ((224 <=? n1) && (n1 <? 240))%N
                          then ((n1 - 224) * 4096 + n2 * 64 + n3)%N
                                 :: code_points l3
                          else
                            match l3 with
                            | c4 :: l4 =>
                                match continuation c4 with
                                | Some n4 =>
                                    if ((240 <=? n1) && (n1 <? 245))%N
                                    then ((n1 - 240) * 262144 + n2 * 4096
                                          + n3 * 64 + n4)%N :: code_points l4
                                    else not_a_character c1 :: code_points l1
                                | None => not_a_character c1 :: code_points l1
                                end
                            | [] => not_a_character c1 :: code_points l1
                            end
                      | None => not_a_character c1 :: code_points l1
                      end
                  | [] => not_a_character c1 :: code_points l1
                  end
            | None => not_a_character c1 :: code_points l1
            end
        | [] => [not_a_character c1]
        end
  end.

Definition characters (s : string) : list N :=
  code_points (list_ascii_of_string s).

(** [StrWhiteSpaceChar]: the white space and the line terminators of the
    language (TAB, LF, VT, FF, CR, SP, NBSP, U+1680, U+2000 to U+200A,
    U+2028, U+2029, U+202F, U+205F, U+3000, U+FEFF). *)
Definition is_white (c : N) : bool :=
  ((9 <=? c) && (c <=? 13) || (c =? 32) || (c =? 160) || (c =? 5760)
   || (8192 <=? c) && (c <=? 8202) || (c =? 8232) || (c =? 8233)
   || (c =? 8239) || (c =? 8287) || (c =? 12288) || (c =? 65279))%N.

Fixpoint drop_white (l : list N) : list N :=
  match l with
  | c :: l' => if is_white c then drop_white l' else l
  | [] => []
  end.

Definition str_trim (l : list N) : list N :=
  rev (drop_white (rev (drop_white l))).

Definition digit_of (base : Z) (c : N) : option Z :=
  let n := Z.of_N c in
  let d :=
    (if (48 <=? n) && (n <=? 57) then Some (n - 48)
     else if (97 <=? n) && (n <=? 102) then Some (n - 87)
     else if (65 <=? n) && (n <=? 70) then Some (n - 55)
     else None)%Z in
  match d with
  | Some v => if (v <? base)%Z then Some v else None
  | None => None
  end.

(** Longest prefix of digits in [base]: its value, its length, the rest. *)
Fixpoint digits (base acc : Z) (count : nat) (l : list N)
  : Z * nat * list N :=
  match l with
  | c :: l' =>
      match digit_of base c with
      | Some d => digits base (acc * base + d) (S count) l'
      | None => (acc, count, l)
      end
  | [] => (acc, count, [])
  end.

Definition is_char (c : N) (a : ascii) : bool := (c =? N_of_ascii a)%N.

Definition strip_sign (l : list N) : bool * list N :=
  match l with
  | c :: l' =>
      if is_char c "-" then (true, l')
      else if is_char c "+" then (false, l')
      else (false, l)
  | [] => (false, [])
  end.

(** [ExponentPart], optional, up to the end of the text. *)
Definition exponent_part (l : list N) : option Z :=
  match l with
  | [] => Some 0%Z
  | c :: l' =>
      if is_char c "e" || is_char c "E" then
        let '(neg, l'') := strip_sign l' in
        match digits 10 0 0 l'' with
        | (e, S _, []) => Some (if neg then (- e)%Z else e)
        | _ => None
        end
      else None
  end.

(** [StrUnsignedDecimalLiteral] other than [Infinity]: its mathematical
    value. *)
Definition unsigned_decimal (l : list N) : option Q :=
  let '(ip, ni, r1) := digits 10 0 0 l in
  let '(fp, nf, r2) :=
    match r1 with
    | c :: r => if is_char c "." then digits 10 0 0 r else (0%Z, O, r1)
    | [] => (0%Z, O, r1)
    end in
  match (ni + nf)%nat with
  | O => None
  | S _ =>
      match exponent_part r2 with
      | Some e =>
          Some ((inject_Z ip + inject_Z fp / inject_Z (10 ^ Z.of_nat nf))
                * Qpower 10 e)%Q
      | None => None
      end
  end.

(** [NonDecimalIntegerLiteral]: [0x], [0o], [0b] and their capitals. *)
Definition non_decimal (l : list N) : option Q :=
  match l with
  | z :: p :: r =>
      let base :=
        if is_char p "x" || is_char p "X" then Some 16%Z
        else if is_char p "o" || is_char p "O" then Some 8%Z
        else if is_char p "b" || is_char p "B" then Some 2%Z
        else None in
      match is_char z "0", base with
      | true, Some b =>
          match digits b 0 0 r with
          | (v, S _, []) => Some (inject_Z v)
          | _ => None
          end
      | _, _ => None
      end
  | _ => None
  end.

(** What a text denotes when read as a number: an infinity, or a signed
    magnitude. *)
Inductive literal : Type :=
| Infinity (negative : bool) : literal
| Decimal (negative : bool) (magnitude : Q) : literal.

(** [StringNumericLiteral]: surrounding white space is dropped, the
    empty text is [0], then the text must be a whole [StrNumericLiteral]
    (a signed decimal literal with optional fraction and exponent,
    [Infinity], or an unsigned [0x], [0o] or [0b] integer); [None] is a
    text that is none of these. *)
Definition StringNumericLiteral (s : string) : option literal :=
  match str_trim (characters s) with
  | [] => Some (Decimal false 0)
  | l =>
      match non_decimal l with
      | Some q => Some (Decimal false q)
      | None =>
          let '(neg, u) := strip_sign l in
          if list_eq_dec N.eq_dec u (characters "Infinity")
          then Some (Infinity neg)
          else option_map (Decimal neg) (unsigned_decimal u)
      end
  end.

End Text.

(** ** The numbers of the engine

    A JavaScript number is an IEEE 754 binary64 value.  [Binary64] takes
    the executable specification of the Standard Library ([SpecFloat], at
    precision 53 and maximal exponent 1024): every sum, product and
    quotient is rounded to the nearest double, a tie going to the even
    mantissa, and zero has a sign. *)
Module Binary64.

Definition prec : Z := 53.
Definition emax : Z := 1024.

Definition number : Type := spec_float.

Definition NaN : number := S754_nan.
Definition zero : number := S754_zero false.

(** The double nearest to the ratio [n / d] of two positive integers:
    the quotient is taken with at least 55 bits, the remainder tells on
    which side of the middle the ratio lies, and [binary_round_aux]
    rounds. *)
Definition round_ratio (negative : bool) (n d : positive) : number :=
  let e := (Z.log2 (Zpos n) - Z.log2 (Zpos d) - 55)%Z in
  let num := (if 0 <=? e then Zpos n else Zpos n * 2 ^ (- e))%Z in
  let den := (if 0 <=? e then Zpos d * 2 ^ e else Zpos d)%Z in
  let '(m, r) := Z.div_eucl num den in
  let l := if (r =? 0)%Z then loc_Exact
           else loc_Inexact (2 * r ?= den)%Z in
  binary_round_aux prec emax negative m e l.

(** The double nearest to a rational; [negative] is the sign written in
    front of it, which a zero keeps. *)
Definition nearest (negative : bool) (q : Q) : number :=
  match Qnum q with
  | Z0 => S754_zero negative
  | Zpos n => round_ratio negative n (Qden q)
  | Zneg n => round_ratio (negb negative) n (Qden q)
  end.

(** The value of a numeric literal of the source, of an integer, of an
    array length. *)
Definition of_Q (q : Q) : number := nearest false q.
Definition of_Z (z : Z) : number := binary_normalize prec emax z 0 false.
Definition of_nat (n : nat) : number := of_Z (Z.of_nat n).

(** [a + b], [a * b], [a / b] *)
Definition add : number -> number -> number := SFadd prec emax.
Definition mul : number -> number -> number := SFmul prec emax.
Definition div : number -> number -> number := SFdiv prec emax.

(** [a < b] and [a >= b]: false when a side is [NaN]. *)
Definition lt (a b : number) : bool := SFltb a b.
Definition ge (a b : number) : bool := SFleb b a.

(** [Math.round]: the integers, the zeros, the infinities and [NaN] are
    returned as they are; any other [x] gives [floor(x + 0.5)], computed
    exactly, and a zero of the sign of [x] when that is 0. *)
Definition Math_round (a : number) : number :=
  match a with
  | S754_finite s m e =>
      if (0 <=? e)%Z then a
      else
        match ((cond_Zopp s (Zpos m) * 2 + 2 ^ (- e)) / 2 ^ (1 - e))%Z with
        | Z0 => S754_zero s
        | n => of_Z n
        end
  | _ => a
  end.

(** [Math.min] and [Math.max] of two arguments: [NaN] if either is, and
    [-0] counts as smaller than [+0]. *)
Definition Math_min (a b : number) : number :=
  match SFcompare a b with
  | None => NaN
  | Some Gt => b
  | Some Lt => a
  | Some Eq => match a with S754_zero false => b | _ => a end
  end.
Definition Math_max (a b : number) : number :=
  match SFcompare a b with
  | None => NaN
  | Some Lt => b
  | Some Gt => a
  | Some Eq => match a with S754_zero true => b | _ => a end
  end.

(** The primitive values that a form field, [localStorage] or a JSON
    backup can put in a budget or a threshold. *)
Inductive value : Type :=
| VUndefined : value
| VNull : value
| VBool (b : bool) : value
| VNum (n : number) : value
| VStr (s : string) : value.

(** [StringToNumber], the conversion applied by [Number(s)] and by the
    arithmetic operators to a string: the double nearest to what the
    text denotes, [NaN] when it denotes nothing. *)
Definition StringToNumber (s : string) : number :=
  match Text.StringNumericLiteral s with
  | Some (Text.Decimal negative q) => nearest negative q
  | Some (Text.Infinity negative) => S754_infinity negative
  | None => NaN
  end.

(** [ToNumber], which is what [Number(v)] and an arithmetic operand apply
    to a primitive value. *)
Definition ToNumber (v : value) : number :=
  match v with
  | VUndefined => NaN
  | VNull => zero
  | VBool b => if b then of_Z 1 else zero
  | VNum n => n
  | VStr s => StringToNumber s
  end.

(** [ToBoolean]: the falsy values are [undefined], [null], [false], the
    two zeros, [NaN] and the empty string. *)
Definition truthy_number (n : number) : bool :=
  match n with
  | S754_nan | S754_zero _ => false
  | _ => true
  end.

Definition ToBoolean (v : value) : bool :=
  match v with
  | VUndefined | VNull => false
  | VBool b => b
  | VNum n => truthy_number n
  | VStr s => negb (String.eqb s "")
  end.

(** [a || b] *)
Definition or_else (a b : value) : value :=
  if ToBoolean a then a else b.

(** [a || b] when both sides are already numbers, as in
    [Number(x) || 0]. *)
Definition or_number (a b : number) : number :=
  if truthy_number a then a else b.

End Binary64.

(** ** Idealised numbers

    The resolvers only compare numbers, and the store updates only move
    them around.  For the properties that rest on comparisons and on the
    shape of the data, a number is modelled by the rational it denotes,
    or one of the three special values: comparisons of doubles agree with
    the comparisons of the rationals they denote.  In this module [+],
    [*] and [/] are those of the rationals and zero has no sign; the
    figures the engine actually computes are the subject of [Binary64]
    and [App64]. *)
Module JS.

Inductive number : Type :=
| NaN : number
| Inf (negative : bool) : number
| Fin (q : Qc) : number.

Definition of_Q (q : Q) : number := Fin (Q2Qc q).
Definition of_Z (z : Z) : number := of_Q (inject_Z z).
Definition of_nat (n : nat) : number := of_Z (Z.of_nat n).

(** The rational a double denotes. *)
Definition of_double (x : Binary64.number) : number :=
  match x with
  | S754_nan => NaN
  | S754_infinity s => Inf s
  | S754_zero _ => of_Z 0
  | S754_finite s m e =>
      of_Q (Qred (inject_Z (cond_Zopp s (Zpos m)) * Qpower 2 e))
  end.

(** The abstract relational comparison of two numbers: undefined as soon
    as one side is [NaN]. *)
Definition compare (a b : number) : option comparison :=
  match a, b with
  | NaN, _ | _, NaN => None
  | Inf s1, Inf s2 =>
      Some (match s1, s2 with
            | true, false => Lt
            | false, true => Gt
            | _, _ => Eq
            end)
  | Inf s, Fin _ => Some (if s then Lt else Gt)
  | Fin _, Inf s => Some (if s then Gt else Lt)
  | Fin p, Fin q => Some (p ?= q)%Qc
  end.

(** [a < b], [a >= b], [a <= b], [a > b]: all false when a side is [NaN]. *)
Definition lt (a b : number) : bool :=
  match compare a b with Some Lt => true | _ => false end.
Definition ge (a b : number) : bool :=
  match compare a b with Some Gt | Some Eq => true | _ => false end.
Definition le (a b : number) : bool :=
  match compare a b with Some Lt | Some Eq => true | _ => false end.
Definition gt (a b : number) : bool :=
  match compare a b with Some Gt => true | _ => false end.

(** Whether two numbers are the same number ([NaN] being itself). *)
Definition same_number (a b : number) : bool :=
  match a, b with
  | NaN, NaN => true
  | Inf s1, Inf s2 => Bool.eqb s1 s2
  | Fin p, Fin q => Qeq_bool p q
  | _, _ => false
  end.

Definition is_zero (q : Qc) : bool :=
  match (q ?= 0)%Qc with Eq => true | _ => false end.
Definition is_neg (q : Qc) : bool :=
  match (q ?= 0)%Qc with Lt => true | _ => false end.

(** [a + b] *)
Definition add (a b : number) : number :=
  match a, b with
  | NaN, _ | _, NaN => NaN
  | Inf s1, Inf s2 => if Bool.eqb s1 s2 then Inf s1 else NaN
  | Inf s, Fin _ | Fin _, Inf s => Inf s
  | Fin p, Fin q => Fin (p + q)%Qc
  end.

(** [a * b]: zero times an infinity is [NaN]. *)
Definition mul (a b : number) : number :=
  match a, b with
  | NaN, _ | _, NaN => NaN
  | Inf s1, Inf s2 => Inf (xorb s1 s2)
  | Inf s, Fin q | Fin q, Inf s =>
      if is_zero q then NaN else Inf (xorb s (is_neg q))
  | Fin p, Fin q => Fin (p * q)%Qc
  end.

(** [a / b]: a division by zero raises nothing, it yields an infinity, or
    [NaN] for [0 / 0]. *)
Definition div (a b : number) : number :=
  match a, b with
  | NaN, _ | _, NaN => NaN
  | Inf _, Inf _ => NaN
  | Inf s, Fin q => Inf (xorb s (is_neg q))
  | Fin _, Inf _ => Fin 0%Qc
  | Fin p, Fin q =>
      if is_zero q
      then (if is_zero p then NaN else Inf (is_neg p))
      else Fin (p / q)%Qc
  end.

(** [Math.round]: the nearest integer, a tie going up. *)
Definition Math_round (a : number) : number :=
  match a with
  | Fin q => of_Z (Qfloor (q + Q2Qc (1 # 2))%Qc)
  | _ => a
  end.

(** [Math.min] and [Math.max] of two arguments: [NaN] if either is. *)
Definition Math_min (a b : number) : number :=
  match compare a b with
  | None => NaN
  | Some Gt => b
  | Some _ => a
  end.
Definition Math_max (a b : number) : number :=
  match compare a b with
  | None => NaN
  | Some Lt => b
  | Some _ => a
  end.

(** ** JavaScript values

    The primitive values that a form field, [localStorage] or a JSON
    backup can put in a budget or a threshold. *)
Inductive value : Type :=
| VUndefined : value
| VNull : value
| VBool (b : bool) : value
| VNum (n : number) : value
| VStr (s : string) : value.

(** *** [StringToNumber]

    The conversion applied by [Number(s)] and by the arithmetic operators
    to a string: the double that the engine yields for the text
    ([Binary64.StringToNumber]), read as the rational it denotes. *)
Definition StringToNumber (s : string) : number :=
  of_double (Binary64.StringToNumber s).

(** *** Coercions *)

(** [ToNumber], which is what [Number(v)] and an arithmetic operand apply
    to a primitive value. *)
Definition ToNumber (v : value) : number :=
  match v with
  | VUndefined => NaN
  | VNull => Fin 0%Qc
  | VBool b => if b then Fin 1%Qc else Fin 0%Qc
  | VNum n => n
  | VStr s => StringToNumber s
  end.

(** [ToBoolean]: the falsy values are [undefined], [null], [false], zero,
    [NaN] and the empty string. *)
Definition truthy_number (n : number) : bool :=
  match n with
  | NaN => false
  | Inf _ => true
  | Fin q => negb (is_zero q)
  end.

Definition ToBoolean (v : value) : bool :=
  match v with
  | VUndefined | VNull => false
  | VBool b => b
  | VNum n => truthy_number n
  | VStr s => negb (String.eqb s "")
  end.

(** [a || b] *)
Definition or_else (a b : value) : value :=
  if ToBoolean a then a else b.

(** [a || b] when both sides are already numbers, as in
    [Number(x) || 0]. *)
Definition or_number (a b : number) : number :=
  if truthy_number a then a else b.

(** *** Arrays and strings *)

(** [xs.at(-1)]: the last element, [undefined] on the empty array. *)
Fixpoint at_last {A : Type} (xs : list A) : option A :=
  match xs with
  | [] => None
  | [x] => Some x
  | _ :: xs' => at_last xs'
  end.

(** [s.includes(sub)] *)
Fixpoint includes (s sub : string) : bool :=
  if String.prefix sub s then true
  else match s with
       | String _ s' => includes s' sub
       | EmptyString => false
       end.

(** [s.replaceAll(pat, rep)] for a non-empty string pattern: occurrences
    are replaced from left to right and do not overlap; [skip] counts the
    characters of an occurrence that remain to be passed over. *)
Fixpoint replaceAll_from (skip : nat) (s pat rep : string) : string :=
  match s with
  | EmptyString => EmptyString
  | String c s' =>
      match skip with
      | S k => replaceAll_from k s' pat rep
      | O =>
          if String.prefix pat s
          then String.append rep
                 (replaceAll_from (String.length pat - 1) s' pat rep)
          else String c (replaceAll_from 0 s' pat rep)
      end
  end.

Definition replaceAll (s pat rep : string) : string :=
  replaceAll_from 0 s pat rep.

(** *** JSON values and exceptions *)

(** What [JSON.parse] returns. *)
#[local] Unset Elimination Schemes.
Inductive json : Type :=
| JNull : json
| JBool (b : bool) : json
| JNumber (n : number) : json
| JString (s : string) : json
| JArray (items : list json) : json
| JObject (props : list (string * json)) : json.
#[local] Set Elimination Schemes.

Fixpoint assoc {A : Type} (key : string) (props : list (string * A))
  : option A :=
  match props with
  | [] => None
  | (k, v) :: props' => if String.eqb k key then Some v else assoc key props'
  end.

(** [obj?.key] for a key that no prototype defines: the own property of
    an object, [undefined] ([None]) on everything else. *)
Definition optional_get (obj : json) (key : string) : option json :=
  match obj with
  | JObject props => assoc key props
  | _ => None
  end.

(** [ToBoolean] of the result of such a read. *)
Definition json_truthy (v : option json) : bool :=
  match v with
  | None | Some JNull => false
  | Some (JBool b) => b
  | Some (JNumber n) => truthy_number n
  | Some (JString s) => negb (String.eqb s "")
  | Some (JArray _) | Some (JObject _) => true
  end.

(** How a block ends: normally with a value, or by a thrown [Error]
    carrying its [message]. *)
Inductive completion (A : Type) : Type :=
| Normal (a : A) : completion A
| Throw (message : string) : completion A.
Arguments Normal {A} a.
Arguments Throw {A} message.

(** The characters the source writes with an escape. *)
Definition quote_char : ascii := ascii_of_nat 34.
Definition backslash_char : ascii := ascii_of_nat 92.
Definition newline_char : ascii := ascii_of_nat 10.

End JS.

Import JS.
Local Open Scope string_scope.

(** ** Data model

    The records of the type sketch of [src/src/src/App.jsx] ([Tier],
    [Rules], [Participant], [Event]) and of the objects the functions
    build, shared by the two variants of the application.  A
    tier's [max] is [None] for [null].  In this model a participant's
    [reserveRMB] is a number, which is what every writer of the field in
    the application stores ([Number(...) || 0]); [App64] keeps the field
    as any stored value. *)
Module Model.

Record Tier : Type :=
  { min : number; max : option number; rate : number }.

Record SmallBand : Type :=
  { upTo : number; small_type : string; small_ratio : number }.
Record MidBand : Type :=
  { from : number; to : number; mid_type : string; mid_ratio : number }.
Record LargeBand : Type :=
  { large_from : number; large_type : string; large_ratio : number }.
Record DepositPolicy : Type :=
  { small : SmallBand; mid : MidBand; large : LargeBand }.

Record Rules : Type :=
  { tiers : list Tier;
    depositPolicy : DepositPolicy;
    priorityWindowMin : number }.

(** The result of [mdtgPrepayOf]. *)
Record Prepay : Type := { type : string; ratio : number }.

Record Participant : Type :=
  { participant_id : string;
    participant_name : string;
    handle : string;
    wish : string;
    reserveRMB : number;
    depositPaid : bool;
    prepayType : string;
    status : string;
    note : string }.

Record Thresholds : Type := { headcount : value }.
Record EventRules : Type := { mdtg : Rules }.

Record Event : Type :=
  { id : string;
    name : string;
    date : string;
    location : string;
    group : string;
    notes : string;
    thresholds : Thresholds;
    rules : EventRules;
    participants : list Participant;
    createdAt : number }.

Record Store : Type :=
  { events : list Event; selectedEventId : option string }.

(** The result of [calcStats]. *)
Record Stats : Type :=
  { count : nat;
    activeCount : nat;
    totalReserveRMB : number;
    collectedPrepayRMB : number }.

End Model.

Import Model.

(** ** [src/src/App.jsx] (the inline-style variant of the application) *)
Module App.

Definition DEFAULT_MDTG_RULES : Rules :=
  {| tiers :=
       [ {| min := of_Z 0; max := Some (of_Z 300); rate := of_Q 6.5 |};
         {| min := of_Z 300; max := Some (of_Z 500); rate := of_Q 6.3 |};
         {| min := of_Z 500; max := None; rate := of_Q 6.0 |} ];
     depositPolicy :=
       {| small :=
            {| upTo := of_Z 300; small_type := "deposit";
               small_ratio := of_Q 0.3 |};
          mid :=
            {| from := of_Z 300; to := of_Z 500; mid_type := "deposit";
               mid_ratio := of_Q 0.5 |};
          large :=
            {| large_from := of_Z 500; large_type := "full";
               large_ratio := of_Q 1.0 |} |};
     priorityWindowMin := of_Z 30 |}.

(** The default value of the [rules] parameter: [None] is an omitted (or
    [undefined]) argument. *)
Definition rules_or_default (rules : option Rules) : Rules :=
  match rules with
  | Some r => r
  | None => DEFAULT_MDTG_RULES
  end.

(** The [for (const t of rules.tiers)] loop of [mdtgRateOf]: [Some r] is
    a [return r] from inside the loop, [None] is the loop running out. *)
Fixpoint mdtgRateOf_loop (n : number) (ts : list Tier) : option number :=
  match ts with
  | [] => None
  | t :: ts' =>
      match max t with
      | None =>
          if ge n (min t) then Some (rate t) else mdtgRateOf_loop n ts'
      | Some m =>
          if ge n (min t) && lt n m then Some (rate t)
          else mdtgRateOf_loop n ts'
      end
  end.

Definition mdtgRateOf (budgetRMB : value) (rules : option Rules) : number :=
  let rules := rules_or_default rules in
  let n := or_number (ToNumber budgetRMB) (of_Z 0) in
  match mdtgRateOf_loop n (tiers rules) with
  | Some r => r
  | None =>
      match at_last (tiers rules) with
      | Some t => rate t
      | None => of_Q 6.0
      end
  end.

Definition mdtgPrepayOf (budgetRMB : value) (rules : option Rules) : Prepay :=
  let rules := rules_or_default rules in
  let n := or_number (ToNumber budgetRMB) (of_Z 0) in
  if lt n (upTo (small (depositPolicy rules))) then
    {| type := "deposit"; ratio := small_ratio (small (depositPolicy rules)) |}
  else if ge n (from (mid (depositPolicy rules)))
          && lt n (to (mid (depositPolicy rules))) then
    {| type := "deposit"; ratio := mid_ratio (mid (depositPolicy rules)) |}
  else {| type := "full"; ratio := of_Q 1.0 |}.

(** The updater [removeEvent] hands to [setData]. *)
Definition removeEvent (id0 : string) (d : Store) : Store :=
  let filtered := filter (fun e => negb (String.eqb (id e) id0)) (events d) in
  {| events := filtered;
     selectedEventId :=
       match nth_error filtered 0 with
       | Some e => Some (id e)
       | None => None
       end |}.

(** The percentage [pct] computed by [ProgressBar], and [calcStats], on
    idealised numbers (on doubles: [App64]). *)
Definition ProgressBar_pct (current total : value) : number :=
  Math_max (of_Z 0)
    (Math_min (of_Z 100)
       (Math_round
          (mul (div (ToNumber (or_else current (VNum (of_Z 0))))
                    (ToNumber (or_else total (VNum (of_Z 1)))))
               (of_Z 100)))).

Definition calcStats (evt : Event) : Stats :=
  let count := List.length (participants evt) in
  let activeList :=
    filter (fun p => String.eqb (status p) "active") (participants evt) in
  let activeCount := List.length activeList in
  let totalReserveRMB :=
    div (Math_round
           (mul (fold_left
                   (fun a p =>
                      add a (or_number (ToNumber (VNum (reserveRMB p)))
                                       (of_Z 0)))
                   (participants evt) (of_Z 0))
                (of_Z 100)))
        (of_Z 100) in
  let collectedPrepayRMB :=
    div (Math_round
           (mul (fold_left
                   (fun a p =>
                      let pre :=
                        mdtgPrepayOf (VNum (reserveRMB p))
                                     (Some (mdtg (rules evt))) in
                      let need :=
                        mul (ToNumber (or_else (VNum (reserveRMB p))
                                               (VNum (of_Z 0))))
                            (ratio pre) in
                      add a (if depositPaid p then need else of_Z 0))
                   (participants evt) (of_Z 0))
                (of_Z 100)))
        (of_Z 100) in
  {| count := count;
     activeCount := activeCount;
     totalReserveRMB := totalReserveRMB;
     collectedPrepayRMB := collectedPrepayRMB |}.

(** What [EventDetail] hands to [ProgressBar]: the active count of the
    statistics and the head-count threshold of the event. *)
Definition EventDetail_progress (evt : Event) : number :=
  let stats := calcStats evt in
  ProgressBar_pct (VNum (of_nat (activeCount stats)))
                  (headcount (thresholds evt)).

(** [safeCSV]: [text] is [None] for [null] or [undefined].  The third
    test of this variant searches for the two characters backslash, n. *)
Definition safeCSV (text : option string) : string :=
  let s := match text with Some t => t | None => "" end in
  if includes s ","
     || includes s (String quote_char "")
     || includes s (String backslash_char "n")
  then String quote_char
         (replaceAll s (String quote_char "")
                     (String quote_char (String quote_char ""))
          ++ String quote_char "")
  else s.

(** *** The backup import of [Header]

    What the [onload] handler can change: the store held by [useState]
    ([data], replaced by [setData]; here the object as [JSON.parse]
    delivered it), the alerts shown to the user, and the value of the
    file input behind [fileInputRef] ([None] while the ref is empty). *)
Record Page : Type :=
  { data : json; alerts : list string; fileInput : option string }.

(** A block of statements: it runs on a page, ends normally or by a
    throw, and leaves a page. *)
Definition Action (A : Type) : Type := Page -> completion A * Page.

Definition ret {A : Type} (a : A) : Action A := fun w => (Normal a, w).

Definition bind {A B : Type} (m : Action A) (f : A -> Action B) : Action B :=
  fun w =>
    match m w with
    | (Normal a, w') => f a w'
    | (Throw e, w') => (Throw e, w')
    end.

Definition throw {A : Type} (message : string) : Action A :=
  fun w => (Throw message, w).

(** [try { body } catch (err) { handler(err.message) }] *)
Definition try_catch {A : Type} (body : Action A)
  (handler : string -> Action A) : Action A :=
  fun w =>
    match body w with
    | (Normal a, w') => (Normal a, w')
    | (Throw e, w') => handler e w'
    end.

(** [try { body } finally { final }] *)
Definition try_finally {A : Type} (body : Action A) (final : Action unit)
  : Action A :=
  fun w =>
    let '(r, w') := body w in
    match final w' with
    | (Normal _, w'') => (r, w'')
    | (Throw e, w'') => (Throw e, w'')
    end.

Notation "x <- m ;; k" := (bind m (fun x => k))
  (at level 61, m at next level, right associativity).
Notation "m ;;; k" := (bind m (fun _ => k))
  (at level 61, right associativity).

Definition setData (obj : json) : Action unit :=
  fun w =>
    (Normal tt,
     {| data := obj; alerts := alerts w; fileInput := fileInput w |}).

Definition alert (message : string) : Action unit :=
  fun w =>
    (Normal tt,
     {| data := data w;
        alerts := (alerts w ++ [message])%list;
        fileInput := fileInput w |}).

(** [if (fileInputRef.current) fileInputRef.current.value = ""] *)
Definition reset_fileInput : Action unit :=
  fun w =>
    match fileInput w with
    | Some _ =>
        (Normal tt,
         {| data := data w; alerts := alerts w; fileInput := Some "" |})
    | None => (Normal tt, w)
    end.

Section Backup.

(** [JSON.parse] of the host: the parsed value, or the message of the
    [SyntaxError] it throws. *)
Variable JSON_parse : string -> json + string.

Definition JSON_parse_action (text : string) : Action json :=
  match JSON_parse text with
  | inl v => ret v
  | inr message => throw message
  end.

(** The [reader.onload] handler; [result] is [e.target?.result]. *)
Definition importJSON_onload (result : option string) : Action unit :=
  try_finally
    (try_catch
       (obj <- JSON_parse_action
                 (match result with Some r => r | None => "" end) ;;
        (if negb (json_truthy (optional_get obj "events"))
         then throw "格式不正确"
         else ret tt) ;;;
        setData obj)
       (fun message => alert ("导入失败：" ++ message)))
    reset_fileInput.

(** [importJSON(file)]: nothing without a file; otherwise the file is
    read as text and [onload] runs on its contents. *)
Definition importJSON (file : option string) : Action unit :=
  match file with
  | None => ret tt
  | Some contents => importJSON_onload (Some contents)
  end.

End Backup.

(** *** Utilities *)

(** [clamp(n, a, b)] is [Math.min(Math.max(n, a), b)]. *)
Definition clamp (n a b : number) : number := Math_min (Math_max n a) b.

(** *** The store updates of [App]

    Each function below is the updater its source namesake hands to
    [setData].  A patch lists, per field, the new value when the patch
    object has that key; [{ ...x, ...patch }] keeps the other fields. *)
Definition patched {A : Type} (old : A) (new : option A) : A :=
  match new with
  | Some v => v
  | None => old
  end.

Record EventPatch : Type :=
  { patch_id : option string;
    patch_name : option string;
    patch_date : option string;
    patch_location : option string;
    patch_group : option string;
    patch_notes : option string;
    patch_thresholds : option Thresholds;
    patch_rules : option EventRules;
    patch_participants : option (list Participant);
    patch_createdAt : option number }.

Definition patch_event (e : Event) (patch : EventPatch) : Event :=
  {| id := patched (id e) (patch_id patch);
     name := patched (name e) (patch_name patch);
     date := patched (date e) (patch_date patch);
     location := patched (location e) (patch_location patch);
     group := patched (group e) (patch_group patch);
     notes := patched (notes e) (patch_notes patch);
     thresholds := patched (thresholds e) (patch_thresholds patch);
     rules := patched (rules e) (patch_rules patch);
     participants := patched (participants e) (patch_participants patch);
     createdAt := patched (createdAt e) (patch_createdAt patch) |}.

Record ParticipantPatch : Type :=
  { patch_participant_id : option string;
    patch_participant_name : option string;
    patch_handle : option string;
    patch_wish : option string;
    patch_reserveRMB : option number;
    patch_depositPaid : option bool;
    patch_prepayType : option string;
    patch_status : option string;
    patch_note : option string }.

Definition patch_participant (p : Participant) (patch : ParticipantPatch)
  : Participant :=
  {| participant_id := patched (participant_id p) (patch_participant_id patch);
     participant_name :=
       patched (participant_name p) (patch_participant_name patch);
     handle := patched (handle p) (patch_handle patch);
     wish := patched (wish p) (patch_wish patch);
     reserveRMB := patched (reserveRMB p) (patch_reserveRMB patch);
     depositPaid := patched (depositPaid p) (patch_depositPaid patch);
     prepayType := patched (prepayType p) (patch_prepayType patch);
     status := patched (status p) (patch_status patch);
     note := patched (note p) (patch_note patch) |}.

(** [{ ...e, participants: ps }] *)
Definition set_participants (e : Event) (ps : list Participant) : Event :=
  {| id := id e; name := name e; date := date e; location := location e;
     group := group e; notes := notes e; thresholds := thresholds e;
     rules := rules e; participants := ps; createdAt := createdAt e |}.

Definition createEvent (evt : Event) (d : Store) : Store :=
  {| events := evt :: events d; selectedEventId := Some (id evt) |}.

Definition updateEvent (id0 : string) (patch : EventPatch) (d : Store)
  : Store :=
  {| events :=
       map (fun e => if String.eqb (id e) id0 then patch_event e patch else e)
           (events d);
     selectedEventId := selectedEventId d |}.

(** The participant object a form hands to [addParticipant]: it has no
    [id] yet. *)
Record NewParticipant : Type :=
  { new_name : string;
    new_handle : string;
    new_wish : string;
    new_reserveRMB : number;
    new_depositPaid : bool;
    new_prepayType : string;
    new_status : string;
    new_note : string }.

(** [{ ...p, id: pid }] *)
Definition with_id (p : NewParticipant) (pid : string) : Participant :=
  {| participant_id := pid; participant_name := new_name p;
     handle := new_handle p; wish := new_wish p;
     reserveRMB := new_reserveRMB p; depositPaid := new_depositPaid p;
     prepayType := new_prepayType p; status := new_status p;
     note := new_note p |}.

(** The [map] of [addParticipant].  [genId()] is called once per event
    with the given id, in list order: [genId k] is what its call number
    [k] returns and [calls] counts the calls made so far. *)
Fixpoint addParticipant_map (genId : nat -> string) (calls : nat)
  (evtId : string) (p : NewParticipant) (es : list Event) : list Event :=
  match es with
  | [] => []
  | e :: es' =>
      if String.eqb (id e) evtId
      then set_participants e (with_id p (genId calls) :: participants e)
           :: addParticipant_map genId (S calls) evtId p es'
      else e :: addParticipant_map genId calls evtId p es'
  end.

Definition addParticipant (genId : nat -> string) (evtId : string)
  (p : NewParticipant) (d : Store) : Store :=
  {| events := addParticipant_map genId 0 evtId p (events d);
     selectedEventId := selectedEventId d |}.

Definition updateParticipant (evtId pid : string) (patch : ParticipantPatch)
  (d : Store) : Store :=
  {| events :=
       map (fun e =>
              if String.eqb (id e) evtId
              then set_participants e
                     (map (fun p =>
                             if String.eqb (participant_id p) pid
                             then patch_participant p patch
                             else p)
                          (participants e))
              else e)
           (events d);
     selectedEventId := selectedEventId d |}.

Definition removeParticipant (evtId pid : string) (d : Store) : Store :=
  {| events :=
       map (fun e =>
              if String.eqb (id e) evtId
              then set_participants e
                     (filter (fun p => negb (String.eqb (participant_id p) pid))
                             (participants e))
              else e)
           (events d);
     selectedEventId := selectedEventId d |}.

(** [onSelect] of the sidebar. *)
Definition onSelect (id0 : string) (d : Store) : Store :=
  {| events := events d; selectedEventId := Some id0 |}.

(** The [selectedEvent] memo: the event named by [selectedEventId] (by
    the id of the first event when that is [null]), else the first
    event, else [null]. *)
Definition selectedEvent (d : Store) : option Event :=
  let id0 :=
    match selectedEventId d with
    | Some s => Some s
    | None => option_map id (nth_error (events d) 0)
    end in
  match
    match id0 with
    | Some i => find (fun e => String.eqb (id e) i) (events d)
    | None => None
    end
  with
  | Some e => Some e
  | None => nth_error (events d) 0
  end.

(** The mount effect: [if (!data.selectedEventId && data.events[0])]
    select the first event. *)
Definition select_first_effect (d : Store) : Store :=
  let unselected :=
    match selectedEventId d with
    | None => true
    | Some s => String.eqb s ""
    end in
  match unselected, nth_error (events d) 0 with
  | true, Some e => {| events := events d; selectedEventId := Some (id e) |}
  | _, _ => d
  end.

(** The two totals of [Header]. *)
Definition totalEvents (d : Store) : nat := List.length (events d).
Definition totalParticipants (d : Store) : nat :=
  fold_left (fun acc e => (acc + List.length (participants e))%nat)
            (events d) 0%nat.

(** *** The forms *)

(** The patches the participant table builds. *)
Definition no_patch : ParticipantPatch :=
  {| patch_participant_id := None; patch_participant_name := None;
     patch_handle := None; patch_wish := None; patch_reserveRMB := None;
     patch_depositPaid := None; patch_prepayType := None;
     patch_status := None; patch_note := None |}.

(** [{ depositPaid: checked }] *)
Definition depositPaid_patch (checked : bool) : ParticipantPatch :=
  {| patch_participant_id := None; patch_participant_name := None;
     patch_handle := None; patch_wish := None; patch_reserveRMB := None;
     patch_depositPaid := Some checked; patch_prepayType := None;
     patch_status := None; patch_note := None |}.

(** [{ status: value }] *)
Definition status_patch (value : string) : ParticipantPatch :=
  {| patch_participant_id := None; patch_participant_name := None;
     patch_handle := None; patch_wish := None; patch_reserveRMB := None;
     patch_depositPaid := None; patch_prepayType := None;
     patch_status := Some value; patch_note := None |}.

(** [{ reserveRMB: amount }] *)
Definition reserveRMB_patch (amount : number) : ParticipantPatch :=
  {| patch_participant_id := None; patch_participant_name := None;
     patch_handle := None; patch_wish := None;
     patch_reserveRMB := Some amount;
     patch_depositPaid := None; patch_prepayType := None;
     patch_status := None; patch_note := None |}.

(** The budget button of [ParticipantTable]: [nv] is the answer of
    [prompt], [None] when the dialog is cancelled. *)
Definition ParticipantTable_editBudget (nv : option string)
  (evtId pid : string) (d : Store) : Store :=
  match nv with
  | None => d
  | Some text =>
      updateParticipant evtId pid
        (reserveRMB_patch
           (clamp (or_number (ToNumber (VStr text)) (of_Z 0))
                  (of_Z 0) (of_Z 9999999)))
        d
  end.

(** The head count a change of the number field of [NewEventModal]
    stores: [clamp(Number(v) || 0, 0, 999)]. *)
Definition NewEventModal_headcount (v : string) : number :=
  clamp (or_number (ToNumber (VStr v)) (of_Z 0)) (of_Z 0) (of_Z 999).

Record ParticipantForm : Type :=
  { form_name : string;
    form_handle : string;
    form_wish : string;
    form_reserveRMB : string;
    form_note : string }.

(** [submit] of [AddParticipantForm]: the message of the alert, or the
    object passed to [onAdd]. *)
Definition AddParticipantForm_submit (evt : Event) (form : ParticipantForm)
  : string + NewParticipant :=
  let prepay :=
    mdtgPrepayOf
      (VNum (or_number (ToNumber (VStr (form_reserveRMB form))) (of_Z 0)))
      (Some (mdtg (rules evt))) in
  if String.eqb (form_name form) ""
  then inl "请填写参与者姓名/昵称"
  else inr {| new_name := form_name form;
              new_handle := form_handle form;
              new_wish := form_wish form;
              new_reserveRMB :=
                or_number (ToNumber (VStr (form_reserveRMB form))) (of_Z 0);
              new_depositPaid := false;
              new_prepayType := type prepay;
              new_status := "active";
              new_note := form_note form |}.

Record EventForm : Type :=
  { event_form_name : string;
    event_form_date : string;
    event_form_location : string;
    event_form_notes : string;
    event_form_group : string;
    event_form_thresholds : Thresholds;
    event_form_rules : EventRules }.

(** [submit] of [NewEventModal]: the message of the alert, or the event
    passed to [onCreate]; [newId] is the result of [genId()] and [now]
    that of [Date.now()]. *)
Definition NewEventModal_submit (newId : string) (now : number)
  (form : EventForm) : string + Event :=
  if String.eqb (event_form_name form) ""
  then inl "请填写活动名称"
  else inr {| id := newId; name := event_form_name form;
              date := event_form_date form;
              location := event_form_location form;
              group := event_form_group form;
              notes := event_form_notes form;
              thresholds := event_form_thresholds form;
              rules := event_form_rules form;
              participants := [];
              createdAt := now |}.

(** *** Persistence *)

Section Storage.

Variable JSON_parse : string -> json + string.

(** [loadData]: [getItem] is how [localStorage.getItem(STORAGE_KEY)]
    ends, with [None] for [null]; the result is [JNull] for [null]. *)
Definition loadData (getItem : completion (option string)) : json :=
  match getItem with
  | Normal (Some raw) =>
      if String.eqb raw "" then JNull
      else match JSON_parse raw with
           | inl v => v
           | inr _ => JNull
           end
  | Normal None => JNull
  | Throw _ => JNull
  end.

(** The initial state of [App], [loadData() || { ... }]: the loaded
    value, or [None] for the default store built on the spot. *)
Definition initial_data (getItem : completion (option string))
  : option json :=
  if json_truthy (Some (loadData getItem)) then Some (loadData getItem)
  else None.

End Storage.

End App.

(** ** [src/src/src/App.jsx] (the utility-class variant) *)
Module SrcApp.

Definition DEFAULT_MDTG_RULES : Rules :=
  {| tiers :=
       [ {| min := of_Z 0; max := Some (of_Z 300); rate := of_Q 6.5 |};
         {| min := of_Z 300; max := Some (of_Z 500); rate := of_Q 6.3 |};
         {| min := of_Z 500; max := None; rate := of_Q 6.0 |} ];
     depositPolicy :=
       {| small :=
            {| upTo := of_Z 300; small_type := "deposit";
               small_ratio := of_Q 0.3 |};
          mid :=
            {| from := of_Z 300; to := of_Z 500; mid_type := "deposit";
               mid_ratio := of_Q 0.5 |};
          large :=
            {| large_from := of_Z 500; large_type := "full";
               large_ratio := of_Q 1.0 |} |};
     priorityWindowMin := of_Z 30 |}.

Definition rules_or_default (rules : option Rules) : Rules :=
  match rules with
  | Some r => r
  | None => DEFAULT_MDTG_RULES
  end.

Fixpoint mdtgRateOf_loop (n : number) (ts : list Tier) : option number :=
  match ts with
  | [] => None
  | t :: ts' =>
      match max t with
      | None =>
          if ge n (min t) then Some (rate t) else mdtgRateOf_loop n ts'
      | Some m =>
          if ge n (min t) && lt n m then Some (rate t)
          else mdtgRateOf_loop n ts'
      end
  end.

Definition mdtgRateOf (budgetRMB : value) (rules : option Rules) : number :=
  let rules := rules_or_default rules in
  let n := or_number (ToNumber budgetRMB) (of_Z 0) in
  match mdtgRateOf_loop n (tiers rules) with
  | Some r => r
  | None =>
      match at_last (tiers rules) with
      | Some t => rate t
      | None => of_Q 6.0
      end
  end.

Definition mdtgPrepayOf (budgetRMB : value) (rules : option Rules) : Prepay :=
  let rules := rules_or_default rules in
  let n := or_number (ToNumber budgetRMB) (of_Z 0) in
  if lt n (upTo (small (depositPolicy rules))) then
    {| type := "deposit"; ratio := small_ratio (small (depositPolicy rules)) |}
  else if ge n (from (mid (depositPolicy rules)))
          && lt n (to (mid (depositPolicy rules))) then
    {| type := "deposit"; ratio := mid_ratio (mid (depositPolicy rules)) |}
  else {| type := "full"; ratio := of_Q 1.0 |}.

Definition removeEvent (id0 : string) (d : Store) : Store :=
  let filtered := filter (fun e => negb (String.eqb (id e) id0)) (events d) in
  {| events := filtered;
     selectedEventId :=
       match nth_error filtered 0 with
       | Some e => Some (id e)
       | None => None
       end |}.

Definition calcStats (evt : Event) : Stats :=
  let count := List.length (participants evt) in
  let activeList :=
    filter (fun p => String.eqb (status p) "active") (participants evt) in
  let activeCount := List.length activeList in
  let totalReserveRMB :=
    div (Math_round
           (mul (fold_left
                   (fun a p =>
                      add a (or_number (ToNumber (VNum (reserveRMB p)))
                                       (of_Z 0)))
                   (participants evt) (of_Z 0))
                (of_Z 100)))
        (of_Z 100) in
  let collectedPrepayRMB :=
    div (Math_round
           (mul (fold_left
                   (fun a p =>
                      let pre :=
                        mdtgPrepayOf (VNum (reserveRMB p))
                                     (Some (mdtg (rules evt))) in
                      let need :=
                        mul (ToNumber (or_else (VNum (reserveRMB p))
                                               (VNum (of_Z 0))))
                            (ratio pre) in
                      add a (if depositPaid p then need else of_Z 0))
                   (participants evt) (of_Z 0))
                (of_Z 100)))
        (of_Z 100) in
  {| count := count;
     activeCount := activeCount;
     totalReserveRMB := totalReserveRMB;
     collectedPrepayRMB := collectedPrepayRMB |}.

(** [safeCSV]: the third test of this variant searches for the line
    feed character. *)
Definition safeCSV (text : option string) : string :=
  let s := match text with Some t => t | None => "" end in
  if includes s ","
     || includes s (String quote_char "")
     || includes s (String newline_char "")
  then String quote_char
         (replaceAll s (String quote_char "")
                     (String quote_char (String quote_char ""))
          ++ String quote_char "")
  else s.

End SrcApp.

(** ** The aggregator and the progress bar in the engine's arithmetic

    [calcStats] and [ProgressBar] of [src/src/App.jsx] produce figures:
    here they are computed as the engine computes them, on doubles, with
    the records holding what a stored event can hold.  A participant's
    [reserveRMB] is any primitive value (a backup or [localStorage] may
    hold a text there), so that [Number(p.reserveRMB) || 0] and
    [p.reserveRMB || 0] are two different readings of it. *)
Module App64.

Import Binary64.

Record Tier : Type :=
  { min : number; max : option number; rate : number }.

Record SmallBand : Type :=
  { upTo : number; small_type : string; small_ratio : number }.
Record MidBand : Type :=
  { from : number; to : number; mid_type : string; mid_ratio : number }.
Record LargeBand : Type :=
  { large_from : number; large_type : string; large_ratio : number }.
Record DepositPolicy : Type :=
  { small : SmallBand; mid : MidBand; large : LargeBand }.

Record Rules : Type :=
  { tiers : list Tier;
    depositPolicy : DepositPolicy;
    priorityWindowMin : number }.

Record Prepay : Type := { type : string; ratio : number }.

Record Participant : Type :=
  { participant_id : string;
    participant_name : string;
    handle : string;
    wish : string;
    reserveRMB : value;
    depositPaid : bool;
    prepayType : string;
    status : string;
    note : string }.

Record Thresholds : Type := { headcount : value }.
Record EventRules : Type := { mdtg : Rules }.

Record Event : Type :=
  { id : string;
    name : string;
    date : string;
    location : string;
    group : string;
    notes : string;
    thresholds : Thresholds;
    rules : EventRules;
    participants : list Participant;
    createdAt : number }.

Record Stats : Type :=
  { count : nat;
    activeCount : nat;
    totalReserveRMB : number;
    collectedPrepayRMB : number }.

Definition DEFAULT_MDTG_RULES : Rules :=
  {| tiers :=
       [ {| min := of_Z 0; max := Some (of_Z 300); rate := of_Q 6.5 |};
         {| min := of_Z 300; max := Some (of_Z 500); rate := of_Q 6.3 |};
         {| min := of_Z 500; max := None; rate := of_Q 6.0 |} ];
     depositPolicy :=
       {| small :=
            {| upTo := of_Z 300; small_type := "deposit";
               small_ratio := of_Q 0.3 |};
          mid :=
            {| from := of_Z 300; to := of_Z 500; mid_type := "deposit";
               mid_ratio := of_Q 0.5 |};
          large :=
            {| large_from := of_Z 500; large_type := "full";
               large_ratio := of_Q 1.0 |} |};
     priorityWindowMin := of_Z 30 |}.

Definition rules_or_default (rules : option Rules) : Rules :=
  match rules with
  | Some r => r
  | None => DEFAULT_MDTG_RULES
  end.

Fixpoint mdtgRateOf_loop (n : number) (ts : list Tier) : option number :=
  match ts with
  | [] => None
  | t :: ts' =>
      match max t with
      | None =>
          if ge n (min t) then Some (rate t) else mdtgRateOf_loop n ts'
      | Some m =>
          if ge n (min t) && lt n m then Some (rate t)
          else mdtgRateOf_loop n ts'
      end
  end.

Definition mdtgRateOf (budgetRMB : value) (rules : option Rules) : number :=
  let rules := rules_or_default rules in
  let n := or_number (ToNumber budgetRMB) (of_Z 0) in
  match mdtgRateOf_loop n (tiers rules) with
  | Some r => r
  | None =>
      match at_last (tiers rules) with
      | Some t => rate t
      | None => of_Q 6.0
      end
  end.

Definition mdtgPrepayOf (budgetRMB : value) (rules : option Rules) : Prepay :=
  let rules := rules_or_default rules in
  let n := or_number (ToNumber budgetRMB) (of_Z 0) in
  if lt n (upTo (small (depositPolicy rules))) then
    {| type := "deposit"; ratio := small_ratio (small (depositPolicy rules)) |}
  else if ge n (from (mid (depositPolicy rules)))
          && lt n (to (mid (depositPolicy rules))) then
    {| type := "deposit"; ratio := mid_ratio (mid (depositPolicy rules)) |}
  else {| type := "full"; ratio := of_Q 1.0 |}.

(** [QuickCalc]: the rate shown for the text typed in the budget field
    and the amount in yen. *)
Definition QuickCalc_rate (rs : Rules) (rmb : string) : number :=
  mdtgRateOf (VNum (or_number (ToNumber (VStr rmb)) (of_Z 0))) (Some rs).

Definition QuickCalc_jpy (rs : Rules) (rmb : string) : number :=
  mul (or_number (ToNumber (VStr rmb)) (of_Z 0))
      (or_number (QuickCalc_rate rs rmb) (of_Z 0)).

(** The percentage [pct] computed by [ProgressBar]. *)
Definition ProgressBar_pct (current total : value) : number :=
  Math_max (of_Z 0)
    (Math_min (of_Z 100)
       (Math_round
          (mul (div (ToNumber (or_else current (VNum (of_Z 0))))
                    (ToNumber (or_else total (VNum (of_Z 1)))))
               (of_Z 100)))).

Definition calcStats (evt : Event) : Stats :=
  let count := List.length (participants evt) in
  let activeList :=
    filter (fun p => String.eqb (status p) "active") (participants evt) in
  let activeCount := List.length activeList in
  let totalReserveRMB :=
    div (Math_round
           (mul (fold_left
                   (fun a p =>
                      add a (or_number (ToNumber (reserveRMB p)) (of_Z 0)))
                   (participants evt) (of_Z 0))
                (of_Z 100)))
        (of_Z 100) in
  let collectedPrepayRMB :=
    div (Math_round
           (mul (fold_left
                   (fun a p =>
                      let pre :=
                        mdtgPrepayOf (reserveRMB p)
                                     (Some (mdtg (rules evt))) in
                      let need :=
                        mul (ToNumber (or_else (reserveRMB p)
                                               (VNum (of_Z 0))))
                            (ratio pre) in
                      add a (if depositPaid p then need else of_Z 0))
                   (participants evt) (of_Z 0))
                (of_Z 100)))
        (of_Z 100) in
  {| count := count;
     activeCount := activeCount;
     totalReserveRMB := totalReserveRMB;
     collectedPrepayRMB := collectedPrepayRMB |}.

(** What [EventDetail] hands to [ProgressBar]: the active count of the
    statistics and the head-count threshold of the event. *)
Definition EventDetail_progress (evt : Event) : number :=
  let stats := calcStats evt in
  ProgressBar_pct (VNum (of_nat (activeCount stats)))
                  (headcount (thresholds evt)).

End App64.

(** * Vocabulary of the specification

    The notions the specification uses to describe the functions above,
    written from its words. *)

(** The budget a resolver works with: the numeric value of its input, and
    [0] when that value is [NaN] (a missing or non-numeric input). *)
Definition budget_of (x : value) : number :=
  match ToNumber x with
  | NaN => of_Z 0
  | n => n
  end.

(** A tier matches a budget: with no upper bound when [budget >= min],
    otherwise when [min <= budget < max]. *)
Definition tier_matches (budget : number) (t : Tier) : bool :=
  match max t with
  | None => ge budget (min t)
  | Some m => le (min t) budget && lt budget m
  end.

(** The rate the specification gives for a budget and a tier list: that
    of the first matching tier, else that of the last tier, else the
    hardcoded 6.0. *)
Definition resolveRate (budget : number) (ts : list Tier) : number :=
  match find (tier_matches budget) ts with
  | Some t => rate t
  | None =>
      match rev ts with
      | t :: _ => rate t
      | [] => of_Q 6.0
      end
  end.

(** The sum of a list of numbers. *)
Fixpoint sum (xs : list number) : number :=
  match xs with
  | [] => of_Z 0
  | x :: xs' => add x (sum xs')
  end.

(** A number rounded to 2 decimal places: the nearest multiple of 1/100,
    a tie going up; the special values stay. *)
Definition round_2dp (x : number) : number :=
  match x with
  | Fin q => of_Q (inject_Z (Qfloor (this q * 100 + (1 # 2))) / 100)
  | _ => x
  end.

(** How many elements of a list satisfy a test. *)
Fixpoint count_where {A : Type} (test : A -> bool) (xs : list A) : nat :=
  match xs with
  | [] => O
  | x :: xs' => if test x then S (count_where test xs') else count_where test xs'
  end.

(** The declared budget of a participant (an invalid amount counts as 0)
    and the prepayment it requires under the rules. *)
Definition declared_budget (p : Participant) : number :=
  budget_of (VNum (reserveRMB p)).

Definition required_prepay (rs : Rules) (p : Participant) : number :=
  mul (declared_budget p)
      (ratio (App.mdtgPrepayOf (VNum (declared_budget p)) (Some rs))).

(** A head-count threshold is a number, or is missing. *)
Definition threshold_value (threshold : option number) : value :=
  match threshold with
  | Some n => VNum n
  | None => VUndefined
  end.

(** The denominator of the quorum progress: the threshold when it is a
    number other than zero (and other than [NaN]), 1 otherwise. *)
Definition quorum_denominator (threshold : option number) : number :=
  match threshold with
  | Some (Fin q) => if Qc_eq_dec q 0 then of_Z 1 else Fin q
  | Some (Inf s) => Inf s
  | Some NaN | None => of_Z 1
  end.

(** [min(100, round(activeCount / d * 100))] *)
Definition quorum_progress (active : nat) (threshold : option number)
  : number :=
  Math_min (of_Z 100)
    (Math_round
       (mul (div (of_nat active) (quorum_denominator threshold))
            (of_Z 100))).

(** ** The scenario of the specification

    An event with threshold 6 and three active participants with the
    budgets 200, 400 and 600; the deposits of the first and of the last
    are collected. *)
Definition participant_of (pid : string) (budget : number) (paid : bool)
  : Participant :=
  {| participant_id := pid; participant_name := pid; handle := "";
     wish := ""; reserveRMB := budget; depositPaid := paid;
     prepayType := "deposit"; status := "active"; note := "" |}.

Definition p200 : Participant := participant_of "p200" (of_Z 200) true.
Definition p400 : Participant := participant_of "p400" (of_Z 400) false.
Definition p600 : Participant := participant_of "p600" (of_Z 600) true.

Definition event_of (eid : string) (ps : list Participant) : Event :=
  {| id := eid; name := eid; date := "2025-01-01"; location := "";
     group := "mdtg"; notes := "";
     thresholds := {| headcount := VNum (of_Z 6) |};
     rules := {| mdtg := App.DEFAULT_MDTG_RULES |};
     participants := ps; createdAt := of_Z 0 |}.

Definition scenario_event : Event := event_of "e1" [p200; p400; p600].
Definition empty_event : Event := event_of "e0" [].

(** ** CSV fields *)

Fixpoint contains_char (c : ascii) (s : string) : bool :=
  match s with
  | EmptyString => false
  | String d s' => Ascii.eqb d c || contains_char c s'
  end.

(** Every double quote doubled. *)
Fixpoint double_quotes (s : string) : string :=
  match s with
  | EmptyString => EmptyString
  | String c s' =>
      if Ascii.eqb c quote_char
      then String quote_char (String quote_char (double_quotes s'))
      else String c (double_quotes s')
  end.

(** A field is quoted exactly when it contains a comma, a double quote
    or a line feed. *)
Definition needs_quoting (s : string) : bool :=
  contains_char "," s || contains_char quote_char s
  || contains_char newline_char s.

Definition csv_field (s : string) : string :=
  if needs_quoting s
  then String quote_char (double_quotes s ++ String quote_char "")
  else s.

(** The text of the self-test of the source: [multi], a line feed,
    [line]. *)
Definition multi_line : string := "multi" ++ String newline_char "line".

(** ** The store *)

(** A list of events with every event of a given id removed. *)
Fixpoint without_id (id0 : string) (es : list Event) : list Event :=
  match es with
  | [] => []
  | e :: es' =>
      if String.eqb (id e) id0 then without_id id0 es'
      else e :: without_id id0 es'
  end.

(** The id of the first event of a list, [null] on the empty list. *)
Definition first_id (es : list Event) : option string :=
  match es with
  | e :: _ => Some (id e)
  | [] => None
  end.

(** A store of three events in which the last one is selected. *)
Definition three_events : Store :=
  {| events := [event_of "a" []; event_of "b" []; event_of "c" []];
     selectedEventId := Some "c" |}.

(** ** Backups

    Three hosts' worth of [JSON.parse]: one that rejects the text, one
    that yields an object without [events], one that yields a store. *)
Definition parse_rejects (text : string) : json + string :=
  inr "Unexpected end of JSON input".
Definition parse_yields (obj : json) (text : string) : json + string :=
  inl obj.
Definition empty_backup : json :=
  JObject [("events", JArray []); ("selectedEventId", JNull)].
Definition blank_page : App.Page :=
  {| App.data := JObject [("events", JArray [JObject []])];
     App.alerts := []; App.fileInput := Some "backup.json" |}.

(** The page once a backup with the given text has been imported. *)
Definition page_after_import (JSON_parse : string -> json + string)
  (text : string) (w : App.Page) : App.Page :=
  snd (App.importJSON JSON_parse (Some text) w).

(** ** Notions used by the further properties *)


(** A tier list that covers the budgets from [lo] on without gap or
    overlap: the first tier starts at [lo], each bounded tier is not
    empty and is followed by one that starts where it ends, and only the
    last tier is unbounded. *)
Fixpoint contiguous_from (lo : number) (ts : list Tier) : bool :=
  match ts with
  | [] => false
  | t :: ts' =>
      same_number (min t) lo
      && match max t, ts' with
         | None, [] => true
         | Some m, _ :: _ => lt lo m && contiguous_from m ts'
         | _, _ => false
         end
  end.

(** Two stores that show the same event: the same event ids in the same
    order, the same selection, and the same id for the event shown. *)
Definition same_view (d d' : Store) : Prop :=
  map id (events d') = map id (events d)
  /\ selectedEventId d' = selectedEventId d
  /\ option_map id (App.selectedEvent d')
     = option_map id (App.selectedEvent d).

(** The patch [{ name }] the sidebar builds to rename an event. *)
Definition name_patch (new_name : string) : App.EventPatch :=
  {| App.patch_id := None; App.patch_name := Some new_name;
     App.patch_date := None; App.patch_location := None;
     App.patch_group := None; App.patch_notes := None;
     App.patch_thresholds := None; App.patch_rules := None;
     App.patch_participants := None; App.patch_createdAt := None |}.

(** No event of the list has the given id. *)
Definition no_event_with (evtId : string) (es : list Event) : Prop :=
  forall e : Event, In e es -> id e <> evtId.

(** No participant of the events with the given id has the given
    participant id. *)
Definition no_participant_with (evtId pid : string) (es : list Event)
  : Prop :=
  forall (e : Event) (p : Participant),
    In e es -> id e = evtId -> In p (participants e) ->
    participant_id p <> pid.

(** The three figures of [calcStats] that do not look at the status, and
    the three that do not look at the deposit flag. *)
Definition money_figures (e : Event) : nat * number * number :=
  (count (App.calcStats e), totalReserveRMB (App.calcStats e),
   collectedPrepayRMB (App.calcStats e)).

Definition deposit_free_figures (e : Event) : nat * nat * number :=
  (count (App.calcStats e), activeCount (App.calcStats e),
   totalReserveRMB (App.calcStats e)).

Definition head_counts (e : Event) : nat * nat :=
  (count (App.calcStats e), activeCount (App.calcStats e)).

(** A form for a participant called [name] with the budget text
    [budget], and the scenario event as a form. *)
Definition participant_form (name budget : string) : App.ParticipantForm :=
  {| App.form_name := name; App.form_handle := ""; App.form_wish := "";
     App.form_reserveRMB := budget; App.form_note := "" |}.

Definition event_form (name : string) : App.EventForm :=
  {| App.event_form_name := name; App.event_form_date := "2025-01-01";
     App.event_form_location := ""; App.event_form_notes := "";
     App.event_form_group := "mdtg";
     App.event_form_thresholds := {| headcount := VNum (of_Z 6) |};
     App.event_form_rules := {| mdtg := App.DEFAULT_MDTG_RULES |} |}.

(** A sample of what the successive calls of [genId()] return. *)
Definition numbered_ids (k : nat) : string :=
  match k with
  | O => "new0"
  | S _ => "new1"
  end.

(** The store that holds the scenario event only. *)
Definition scenario_store : Store :=
  {| events := [scenario_event]; selectedEventId := Some "e1" |}.

(** ** The figures, in the engine's arithmetic

    The notions the specification uses for the aggregator and the quorum
    progress, read on doubles: a sum is taken from left to right starting
    at 0, and rounding to 2 decimal places is the nearest integer of 100
    times the number, divided by 100. *)
Module Spec64.

Import Binary64 App64.

(** The budget an aggregate works with: the numeric value of what is
    stored, and 0 when that value is [NaN] (or a zero). *)
Definition budget_of (x : value) : number :=
  match ToNumber x with
  | S754_nan | S754_zero _ => zero
  | n => n
  end.

Definition sum (xs : list number) : number := fold_left add xs zero.

Definition round_2dp (x : number) : number :=
  div (Math_round (mul x (of_Z 100))) (of_Z 100).


(** The declared budget of a participant and the prepayment it requires
    under the rules: [budget * resolvePrepay(budget).ratio]. *)
Definition declared_budget (p : Participant) : number :=
  budget_of (reserveRMB p).

Definition required_prepay (rs : Rules) (p : Participant) : number :=
  mul (declared_budget p)
      (ratio (mdtgPrepayOf (VNum (declared_budget p)) (Some rs))).



(** A head-count threshold is a number, or is missing. *)
Definition threshold_value (threshold : option number) : value :=
  match threshold with
  | Some n => VNum n
  | None => VUndefined
  end.

(** The denominator of the quorum progress: the threshold when it is a
    number other than zero (and other than [NaN]), 1 otherwise. *)
Definition quorum_denominator (threshold : option number) : number :=
  match threshold with
  | Some S754_nan | Some (S754_zero _) | None => of_Z 1
  | Some n => n
  end.

(** [min(100, round(activeCount / d * 100))] *)
Definition quorum_progress (active : nat) (threshold : option number)
  : number :=
  Math_min (of_Z 100)
    (Math_round
       (mul (div (of_nat active) (quorum_denominator threshold))
            (of_Z 100))).

(** The scenario of the specification: threshold 6, three active
    participants with the budgets 200, 400 and 600, the deposits of the
    first and of the last collected. *)
Definition participant_of (pid : string) (budget : value) (paid : bool)
  : Participant :=
  {| participant_id := pid; participant_name := pid; handle := "";
     wish := ""; reserveRMB := budget; depositPaid := paid;
     prepayType := "deposit"; status := "active"; note := "" |}.

Definition event_of (eid : string) (threshold : value)
  (ps : list Participant) : Event :=
  {| id := eid; name := eid; date := "2025-01-01"; location := "";
     group := "mdtg"; notes := "";
     thresholds := {| headcount := threshold |};
     rules := {| mdtg := DEFAULT_MDTG_RULES |};
     participants := ps; createdAt := of_Z 0 |}.

Definition scenario_event : Event :=
  event_of "e1" (VNum (of_Z 6))
    [ participant_of "p200" (VNum (of_Z 200)) true;
      participant_of "p400" (VNum (of_Z 400)) false;
      participant_of "p600" (VNum (of_Z 600)) true ].


(** An event whose only participant has paid and has the budget 3.35;
    two events with the budgets 0.1, 0.2 and 0.705 in opposite orders. *)
Definition small_budget_event : Event :=
  event_of "e3" (VNum (of_Z 6))
    [participant_of "p" (VNum (of_Q 3.35)) true].

Definition ascending_event : Event :=
  event_of "e4" (VNum (of_Z 6))
    [ participant_of "a" (VNum (of_Q 0.1)) false;
      participant_of "b" (VNum (of_Q 0.2)) false;
      participant_of "c" (VNum (of_Q 0.705)) false ].

Definition descending_event : Event :=
  event_of "e5" (VNum (of_Z 6))
    [ participant_of "c" (VNum (of_Q 0.705)) false;
      participant_of "b" (VNum (of_Q 0.2)) false;
      participant_of "a" (VNum (of_Q 0.1)) false ].

(** *** Classes of doubles

    A double with a given sign bit; a double that is not negative
    ([NaN] counts as such); a double that is not a zero; a double whose
    exponent is not below the least one; and what a running sum can be:
    not negative zero, with no exponent below the least one. *)
Definition has_sign (s : bool) (x : number) : Prop :=
  match x with
  | S754_zero t | S754_infinity t | S754_finite t _ _ => t = s
  | S754_nan => False
  end.

Definition sign_clear (x : number) : Prop :=
  match x with
  | S754_zero t | S754_infinity t | S754_finite t _ _ => t = false
  | S754_nan => True
  end.




End Spec64.

(** The text [600] behind a no-break space (U+00A0). *)
Definition no_break_space_600 : string :=
  String (ascii_of_nat 194) (String (ascii_of_nat 160) "600").

(** * Properties *)

(** ** Numbers: order and arithmetic *)

(** Case analysis on every rational comparison in sight. *)
Ltac qc_cases :=
  unfold Qccompare in *;
  repeat match goal with
         | H : context [Qcompare ?x ?y] |- _ => revert H
         end;
  repeat match goal with
         | |- context [Qcompare ?x ?y] => destruct (Qcompare_spec x y)
         end.

Ltac number_order :=
  unfold JS.lt, JS.ge, JS.le, JS.gt, JS.compare in *;
  qc_cases; intros; simpl in *;
  try discriminate; try reflexivity; try (exfalso; lra).

Lemma ge_lt_false (a b : number) : ge a b = true -> lt a b = false.
Proof.
  unfold ge, lt. destruct (JS.compare a b) as [[]|]; intros; congruence.
Qed.

Lemma lt_ge_false (a b : number) : lt a b = true -> ge a b = false.
Proof.
  unfold ge, lt. destruct (JS.compare a b) as [[]|]; intros; congruence.
Qed.

(** [a >= b] and [c <= b] exclude [a < c]. *)
Lemma ge_le_lt_false (a b c : number) :
  ge a b = true -> le c b = true -> lt a c = false.
Proof.
  destruct a as [|[]|p], b as [|[]|q], c as [|[]|r]; number_order.
Qed.

(** [a >= b] and [c <= b] give [a >= c]. *)
Lemma ge_le_ge (a b c : number) :
  ge a b = true -> le c b = true -> ge a c = true.
Proof.
  destruct a as [|[]|p], b as [|[]|q], c as [|[]|r]; number_order.
Qed.

(** [a < b] and [b <= c] give [a < c]. *)
Lemma lt_le_lt (a b c : number) :
  lt a b = true -> le b c = true -> lt a c = true.
Proof.
  destruct a as [|[]|p], b as [|[]|q], c as [|[]|r]; number_order.
Qed.

Lemma is_zero_true (q : Qc) : is_zero q = true -> q = 0%Qc.
Proof.
  unfold is_zero. intros H. apply Qceq_alt.
  destruct (q ?= 0)%Qc; congruence.
Qed.

Lemma is_zero_false (q : Qc) : is_zero q = false -> q <> 0%Qc.
Proof.
  unfold is_zero. intros H E. apply Qceq_alt in E. rewrite E in H.
  discriminate.
Qed.

(** [n || 0] on a number: [NaN] becomes [0], any other number stays. *)
Lemma or_number_zero (n : number) :
  or_number n (of_Z 0) = match n with NaN => of_Z 0 | _ => n end.
Proof.
  destruct n as [|s|q]; try reflexivity.
  unfold or_number, truthy_number.
  destruct (is_zero q) eqn:E; simpl; [|reflexivity].
  apply is_zero_true in E. subst q. reflexivity.
Qed.

Lemma add_zero_r (a : number) : add a (of_Z 0) = a.
Proof.
  destruct a as [|s|q]; try reflexivity.
  simpl. f_equal. apply Qcplus_0_r.
Qed.

(** Two numbers given by fractions are equal as soon as the fractions
    are. *)
Lemma of_Q_eq (p q : Q) : (p == q)%Q -> of_Q p = of_Q q.
Proof.
  intros H. unfold of_Q. f_equal. apply Qc_is_canon. simpl.
  now rewrite H.
Qed.

Lemma Fin_neq (p q : Qc) : ~ (this p == this q)%Q -> Fin p <> Fin q.
Proof.
  intros H E. injection E as E. apply H. now rewrite E.
Qed.

Lemma same_number_eq (a b : number) : same_number a b = true <-> a = b.
Proof.
  destruct a as [|s|p], b as [|t|q]; simpl; split; intros H;
    try discriminate; try reflexivity.
  - apply eqb_prop in H. now subst.
  - injection H as ->. apply eqb_reflx.
  - f_equal. apply Qc_is_canon. now apply Qeq_bool_iff.
  - injection H as ->. apply Qeq_bool_iff. reflexivity.
Qed.

Lemma same_number_neq (a b : number) : same_number a b = false -> a <> b.
Proof.
  intros H E. apply same_number_eq in E. congruence.
Qed.

(** Closed equations and disequations between numbers, by evaluation. *)
Ltac number_compute :=
  match goal with
  | |- @eq number _ _ => apply same_number_eq; vm_compute; reflexivity
  | |- not (@eq number _ _) => apply same_number_neq; vm_compute; reflexivity
  end.

(** ** The budget coercion of the resolvers *)

Lemma coerced_budget (x : value) :
  or_number (ToNumber x) (of_Z 0) = budget_of x.
Proof.
  unfold budget_of. rewrite or_number_zero.
  destruct (ToNumber x); reflexivity.
Qed.

Lemma budget_of_number (b : number) :
  b <> NaN -> budget_of (VNum b) = b.
Proof. unfold budget_of. simpl. destruct b; congruence. Qed.

Lemma lt_not_NaN (a b : number) : lt a b = true -> a <> NaN.
Proof. destruct a; [discriminate | congruence | congruence]. Qed.

Lemma ge_not_NaN (a b : number) : ge a b = true -> a <> NaN.
Proof. destruct a; [discriminate | congruence | congruence]. Qed.

(** ** The prepayment resolver on the default policy *)

Lemma mdtgPrepayOf_default_unfold (x : value) :
  App.mdtgPrepayOf x None =
  if lt (budget_of x) (of_Z 300)
  then {| type := "deposit"; ratio := of_Q 0.3 |}
  else if ge (budget_of x) (of_Z 300) && lt (budget_of x) (of_Z 500)
       then {| type := "deposit"; ratio := of_Q 0.5 |}
       else {| type := "full"; ratio := of_Q 1.0 |}.
Proof.
  unfold App.mdtgPrepayOf. rewrite coerced_budget. reflexivity.
Qed.

(** C1. With the default deposit policy, [mdtgPrepayOf] returns a 30%
    deposit for every budget below 300, a 50% deposit for every budget
    from 300 up to but excluding 500, and the full payment for every
    budget from 500 on; the boundaries 300 and 500 belong to the higher
    band. *)
Theorem mdtgPrepayOf_default_bands (b : number) :
  (lt b (of_Z 300) = true ->
   App.mdtgPrepayOf (VNum b) None
   = {| type := "deposit"; ratio := of_Q 0.3 |})
  /\ (ge b (of_Z 300) = true -> lt b (of_Z 500) = true ->
      App.mdtgPrepayOf (VNum b) None
      = {| type := "deposit"; ratio := of_Q 0.5 |})
  /\ (ge b (of_Z 500) = true ->
      App.mdtgPrepayOf (VNum b) None
      = {| type := "full"; ratio := of_Q 1.0 |})
  /\ App.mdtgPrepayOf (VNum (of_Z 300)) None
     = {| type := "deposit"; ratio := of_Q 0.5 |}
  /\ App.mdtgPrepayOf (VNum (of_Z 500)) None
     = {| type := "full"; ratio := of_Q 1.0 |}.
Proof.
  repeat split; try reflexivity.
  - intros H. rewrite mdtgPrepayOf_default_unfold.
    rewrite (budget_of_number b (lt_not_NaN _ _ H)). now rewrite H.
  - intros H1 H2. rewrite mdtgPrepayOf_default_unfold.
    rewrite (budget_of_number b (ge_not_NaN _ _ H1)).
    now rewrite (ge_lt_false _ _ H1), H1, H2.
  - intros H. rewrite mdtgPrepayOf_default_unfold.
    rewrite (budget_of_number b (ge_not_NaN _ _ H)).
    rewrite (ge_le_lt_false b (of_Z 500) (of_Z 300) H eq_refl).
    now rewrite (ge_lt_false _ _ H), andb_false_r.
Qed.

(** The three bands of C1 at the budgets 200, 400 and 600. *)
Lemma mdtgPrepayOf_default_bands_witness :
  App.mdtgPrepayOf (VNum (of_Z 200)) None
  = {| type := "deposit"; ratio := of_Q 0.3 |}
  /\ App.mdtgPrepayOf (VNum (of_Z 400)) None
     = {| type := "deposit"; ratio := of_Q 0.5 |}
  /\ App.mdtgPrepayOf (VNum (of_Z 600)) None
     = {| type := "full"; ratio := of_Q 1.0 |}.
Proof.
  split; [|split].
  - apply (proj1 (mdtgPrepayOf_default_bands (of_Z 200))). reflexivity.
  - apply (proj1 (proj2 (mdtgPrepayOf_default_bands (of_Z 400))));
      reflexivity.
  - apply (proj1 (proj2 (proj2 (mdtgPrepayOf_default_bands (of_Z 600))))).
    reflexivity.
Defined.

(** ** The rate resolver on the default tiers *)

Lemma mdtgRateOf_default_unfold (x : value) :
  App.mdtgRateOf x None =
  if ge (budget_of x) (of_Z 0) && lt (budget_of x) (of_Z 300)
  then of_Q 6.5
  else if ge (budget_of x) (of_Z 300) && lt (budget_of x) (of_Z 500)
       then of_Q 6.3
       else of_Q 6.0.
Proof.
  unfold App.mdtgRateOf. rewrite coerced_budget. simpl.
  destruct (ge (budget_of x) (of_Z 0) && lt (budget_of x) (of_Z 300));
    [reflexivity|].
  destruct (ge (budget_of x) (of_Z 300) && lt (budget_of x) (of_Z 500));
    [reflexivity|].
  destruct (ge (budget_of x) (of_Z 500)); reflexivity.
Qed.

(** C2. With the default tier list, [mdtgRateOf] returns 6.5 for every
    budget in [0, 300), 6.3 for every budget in [300, 500) and 6.0 for
    every budget from 500 on; 300 and 500 belong to the higher tier. *)
Theorem mdtgRateOf_default_tiers (b : number) :
  (ge b (of_Z 0) = true -> lt b (of_Z 300) = true ->
   App.mdtgRateOf (VNum b) None = of_Q 6.5)
  /\ (ge b (of_Z 300) = true -> lt b (of_Z 500) = true ->
      App.mdtgRateOf (VNum b) None = of_Q 6.3)
  /\ (ge b (of_Z 500) = true ->
      App.mdtgRateOf (VNum b) None = of_Q 6.0)
  /\ App.mdtgRateOf (VNum (of_Z 300)) None = of_Q 6.3
  /\ App.mdtgRateOf (VNum (of_Z 500)) None = of_Q 6.0.
Proof.
  repeat split; try reflexivity.
  - intros H1 H2. rewrite mdtgRateOf_default_unfold.
    rewrite (budget_of_number b (ge_not_NaN _ _ H1)). now rewrite H1, H2.
  - intros H1 H2. rewrite mdtgRateOf_default_unfold.
    rewrite (budget_of_number b (ge_not_NaN _ _ H1)).
    now rewrite (ge_lt_false _ _ H1), andb_false_r, H1, H2.
  - intros H. rewrite mdtgRateOf_default_unfold.
    rewrite (budget_of_number b (ge_not_NaN _ _ H)).
    rewrite (ge_le_lt_false b (of_Z 500) (of_Z 300) H eq_refl).
    now rewrite (ge_lt_false _ _ H), !andb_false_r.
Qed.

(** The three tiers of C2 at the budgets 0, 499.99 and 500.01. *)
Lemma mdtgRateOf_default_tiers_witness :
  App.mdtgRateOf (VNum (of_Z 0)) None = of_Q 6.5
  /\ App.mdtgRateOf (VNum (of_Q 499.99)) None = of_Q 6.3
  /\ App.mdtgRateOf (VNum (of_Q 500.01)) None = of_Q 6.0.
Proof.
  split; [|split].
  - apply (proj1 (mdtgRateOf_default_tiers (of_Z 0))); reflexivity.
  - apply (proj1 (proj2 (mdtgRateOf_default_tiers (of_Q 499.99))));
      reflexivity.
  - apply (proj1 (proj2 (proj2 (mdtgRateOf_default_tiers (of_Q 500.01))))).
    reflexivity.
Defined.

(** ** The coercion is not a clamp *)

Lemma budget_of_idempotent (x : value) :
  budget_of (VNum (budget_of x)) = budget_of x.
Proof.
  unfold budget_of. simpl. destruct (ToNumber x); reflexivity.
Qed.

Lemma mdtgRateOf_budget_of (x : value) (rules : option Rules) :
  App.mdtgRateOf x rules = App.mdtgRateOf (VNum (budget_of x)) rules.
Proof.
  unfold App.mdtgRateOf.
  now rewrite !coerced_budget, budget_of_idempotent.
Qed.

Lemma mdtgPrepayOf_budget_of (x : value) (rules : option Rules) :
  App.mdtgPrepayOf x rules = App.mdtgPrepayOf (VNum (budget_of x)) rules.
Proof.
  unfold App.mdtgPrepayOf.
  now rewrite !coerced_budget, budget_of_idempotent.
Qed.

Lemma lt_zero_lt_300 (b : number) :
  lt b (of_Z 0) = true -> lt b (of_Z 300) = true.
Proof. intros H. exact (lt_le_lt b (of_Z 0) (of_Z 300) H eq_refl). Qed.

(** C3, as the code has it.  The resolvers coerce their input with
    [Number(x) || 0] and do not clamp it: the result for [x] is the result
    for the numeric value of [x], a missing or non-numeric input (numeric
    value [NaN]) counting as 0; a negative budget is used as it is, so
    that on the default rules it gets the 30% deposit of budget 0 but the
    rate 6.0 of the last tier. *)
Theorem resolvers_coerce_budget (x : value) (rules : option Rules) :
  App.mdtgRateOf x rules = App.mdtgRateOf (VNum (budget_of x)) rules
  /\ App.mdtgPrepayOf x rules = App.mdtgPrepayOf (VNum (budget_of x)) rules
  /\ (ToNumber x = NaN ->
      App.mdtgRateOf x rules = App.mdtgRateOf (VNum (of_Z 0)) rules
      /\ App.mdtgPrepayOf x rules = App.mdtgPrepayOf (VNum (of_Z 0)) rules)
  /\ (forall b : number,
        lt b (of_Z 0) = true ->
        budget_of (VNum b) = b
        /\ App.mdtgPrepayOf (VNum b) None
           = App.mdtgPrepayOf (VNum (of_Z 0)) None
        /\ App.mdtgRateOf (VNum b) None = of_Q 6.0).
Proof.
  split; [apply mdtgRateOf_budget_of|].
  split; [apply mdtgPrepayOf_budget_of|].
  split.
  - intros H.
    rewrite (mdtgRateOf_budget_of x), (mdtgPrepayOf_budget_of x).
    unfold budget_of. rewrite H. split; reflexivity.
  - intros b H.
    pose proof (budget_of_number b (lt_not_NaN _ _ H)) as Hb.
    split; [exact Hb|]. split.
    + rewrite mdtgPrepayOf_default_unfold, Hb.
      now rewrite (lt_zero_lt_300 b H).
    + rewrite mdtgRateOf_default_unfold, Hb.
      rewrite (lt_ge_false _ _ H). simpl.
      assert (ge b (of_Z 300) = false) as ->; [|reflexivity].
      destruct (ge b (of_Z 300)) eqn:E; [|reflexivity].
      pose proof (ge_le_ge b (of_Z 300) (of_Z 0) E eq_refl) as E0.
      rewrite (lt_ge_false _ _ H) in E0. discriminate.
Qed.

(** C3 at the text "abc" and at the budget -5. *)
Lemma resolvers_coerce_budget_witness :
  (App.mdtgRateOf (VStr "abc") None = App.mdtgRateOf (VNum (of_Z 0)) None
   /\ App.mdtgPrepayOf (VStr "abc") None
      = App.mdtgPrepayOf (VNum (of_Z 0)) None)
  /\ (budget_of (VNum (of_Z (-5))) = of_Z (-5)
      /\ App.mdtgPrepayOf (VNum (of_Z (-5))) None
         = App.mdtgPrepayOf (VNum (of_Z 0)) None
      /\ App.mdtgRateOf (VNum (of_Z (-5))) None = of_Q 6.0).
Proof.
  split.
  - apply (proj1 (proj2 (proj2
             (resolvers_coerce_budget (VStr "abc") None)))).
    reflexivity.
  - apply (proj2 (proj2 (proj2
             (resolvers_coerce_budget VUndefined None)))).
    reflexivity.
Defined.

(** C3 as stated fails: the budget -5 is negative, yet it does not get
    the rate of budget 0. *)
Lemma mdtgRateOf_negative_not_clamped :
  lt (of_Z (-5)) (of_Z 0) = true
  /\ App.mdtgRateOf (VNum (of_Z (-5))) (Some App.DEFAULT_MDTG_RULES)
     = of_Q 6.0
  /\ App.mdtgRateOf (VNum (of_Z 0)) (Some App.DEFAULT_MDTG_RULES)
     = of_Q 6.5
  /\ App.mdtgRateOf (VNum (of_Z (-5))) (Some App.DEFAULT_MDTG_RULES)
     <> App.mdtgRateOf (VNum (of_Z 0)) (Some App.DEFAULT_MDTG_RULES).
Proof.
  repeat split. apply Fin_neq. simpl. intros H. discriminate H.
Qed.

(** Texts are read as [Number] reads them: [600] behind a no-break space
    is the budget 600, a text that overflows is an infinite budget, and
    both get the rate of the last default tier. *)
Example mdtgRateOf_of_texts :
  budget_of (VStr no_break_space_600) = of_Z 600
  /\ App.mdtgRateOf (VStr no_break_space_600) None = of_Q 6.0
  /\ budget_of (VStr "1e400") = Inf false
  /\ App.mdtgRateOf (VStr "1e400") None = of_Q 6.0
  /\ budget_of (VStr "12px") = of_Z 0
  /\ App.mdtgRateOf (VStr "12px") None = of_Q 6.5.
Proof. repeat split; number_compute. Qed.

(** ** The rate resolver on any tier list *)

Lemma le_ge (a b : number) : le a b = ge b a.
Proof.
  destruct a as [|[]|p], b as [|[]|q]; try reflexivity.
  unfold le, ge, JS.compare, Qccompare.
  rewrite <- (Qcompare_antisym (this p) (this q)).
  destruct (this p ?= this q)%Q; reflexivity.
Qed.

Lemma mdtgRateOf_loop_find (n : number) (ts : list Tier) :
  App.mdtgRateOf_loop n ts = option_map rate (find (tier_matches n) ts).
Proof.
  induction ts as [|t ts IH]; [reflexivity|].
  simpl. unfold tier_matches at 1.
  destruct (max t) as [m|].
  - rewrite le_ge. destruct (ge n (min t) && lt n m); [reflexivity|exact IH].
  - destruct (ge n (min t)); [reflexivity|exact IH].
Qed.

Lemma at_last_rev {A : Type} (xs : list A) : at_last xs = hd_error (rev xs).
Proof.
  induction xs as [|x xs IH]; [reflexivity|].
  destruct xs as [|y ys]; [reflexivity|].
  change (at_last (x :: y :: ys)) with (at_last (y :: ys)).
  rewrite IH. change (rev (x :: y :: ys)) with (rev (y :: ys) ++ [x])%list.
  destruct (rev (y :: ys)) eqn:E; [|reflexivity].
  apply (f_equal (@List.length A)) in E.
  rewrite length_rev in E. discriminate.
Qed.

(** C6. [mdtgRateOf] is total and, on every supplied tier list and every
    input, returns the rate of the first tier in list order that matches
    the coerced budget; when none matches, the rate of the last tier; on
    the empty list, 6.0. *)
Theorem mdtgRateOf_first_match (x : value) (r : Rules) :
  App.mdtgRateOf x (Some r) = resolveRate (budget_of x) (tiers r).
Proof.
  unfold App.mdtgRateOf, resolveRate, App.rules_or_default. cbv zeta.
  rewrite coerced_budget, mdtgRateOf_loop_find, at_last_rev.
  destruct (find (tier_matches (budget_of x)) (tiers r)); [reflexivity|].
  simpl. destruct (rev (tiers r)); reflexivity.
Qed.

(** The fallbacks on supplied lists that match nothing: a list whose only
    tier starts at 100 gives a budget of 50 that tier's rate, and the
    empty list gives 6.0. *)
Example mdtgRateOf_fallbacks :
  App.mdtgRateOf (VNum (of_Z 50))
    (Some {| tiers := [ {| min := of_Z 100; max := Some (of_Z 200);
                           rate := of_Q 7.1 |};
                        {| min := of_Z 200; max := None;
                           rate := of_Q 7.3 |} ];
             depositPolicy := depositPolicy App.DEFAULT_MDTG_RULES;
             priorityWindowMin := of_Z 30 |})
  = of_Q 7.3
  /\ App.mdtgRateOf (VNum (of_Z 50))
       (Some {| tiers := [];
                depositPolicy := depositPolicy App.DEFAULT_MDTG_RULES;
                priorityWindowMin := of_Z 30 |})
     = of_Q 6.0.
Proof. split; reflexivity. Qed.

(** ** The event aggregator on idealised numbers

    How [calcStats] combines the participants, with the arithmetic
    idealised; the store updates below are stated against it.  The
    figures the engine computes are the subject of the section on the
    engine's arithmetic. *)

Lemma add_zero_l (a : number) : add (of_Z 0) a = a.
Proof.
  destruct a as [|s|q]; try reflexivity.
  simpl. f_equal. apply Qcplus_0_l.
Qed.

Lemma add_assoc (a b c : number) : add a (add b c) = add (add a b) c.
Proof.
  destruct a as [|[]|p], b as [|[]|q], c as [|[]|r]; try reflexivity.
  simpl. f_equal. apply Qcplus_assoc.
Qed.

(** A [reduce] that adds one term per element computes a sum. *)
Lemma reduce_add_sum {A : Type} (term : A -> number) (xs : list A)
  (a0 : number) :
  fold_left (fun a x => add a (term x)) xs a0 = add a0 (sum (map term xs)).
Proof.
  revert a0. induction xs as [|x xs IH]; intros a0; simpl.
  - now rewrite add_zero_r.
  - now rewrite IH, add_assoc.
Qed.

(** Adding 0 for the elements that fail a test is summing over those that
    pass it. *)
Lemma sum_filter {A : Type} (test : A -> bool) (term : A -> number)
  (xs : list A) :
  sum (map (fun x => if test x then term x else of_Z 0) xs)
  = sum (map term (filter test xs)).
Proof.
  induction xs as [|x xs IH]; simpl; [reflexivity|].
  destruct (test x); simpl; rewrite IH; [reflexivity|apply add_zero_l].
Qed.


Lemma this_Q2Qc (q : Q) : (this (Q2Qc q) == q)%Q.
Proof. simpl. apply Qred_correct. Qed.

Lemma this_plus (p q : Qc) : (this (p + q)%Qc == this p + this q)%Q.
Proof. unfold Qcplus. apply this_Q2Qc. Qed.

Lemma this_mult (p q : Qc) : (this (p * q)%Qc == this p * this q)%Q.
Proof. unfold Qcmult. apply this_Q2Qc. Qed.

Lemma this_div (p q : Qc) : (this (p / q)%Qc == this p / this q)%Q.
Proof.
  unfold Qcdiv, Qcinv. rewrite this_mult, this_Q2Qc. reflexivity.
Qed.

(** [Math.round(x * 100) / 100] rounds to 2 decimal places. *)
Lemma round_times_100 (x : number) :
  div (Math_round (mul x (of_Z 100))) (of_Z 100) = round_2dp x.
Proof.
  destruct x as [|[]|q]; try reflexivity.
  unfold round_2dp, mul, Math_round, of_Z, of_Q, div.
  change (is_zero (Q2Qc (inject_Z 100))) with false. cbv iota.
  f_equal. apply Qc_is_canon.
  rewrite this_div, !this_Q2Qc.
  apply Qdiv_comp; [|reflexivity].
  apply inject_Z_injective. apply Qfloor_comp.
  rewrite this_plus, this_mult, !this_Q2Qc. reflexivity.
Qed.

Lemma or_else_number (r : number) :
  ToNumber (or_else (VNum r) (VNum (of_Z 0))) = budget_of (VNum r).
Proof.
  rewrite <- coerced_budget. unfold or_else, or_number. simpl.
  destruct (truthy_number r); reflexivity.
Qed.

Lemma collectedPrepayRMB_sum (evt : Event) :
  collectedPrepayRMB (App.calcStats evt)
  = round_2dp (sum (map (required_prepay (mdtg (rules evt)))
                        (filter depositPaid (participants evt)))).
Proof.
  unfold App.calcStats. cbv zeta. cbn [collectedPrepayRMB].
  rewrite round_times_100.
  rewrite (reduce_add_sum
             (fun p =>
                if depositPaid p
                then mul (ToNumber (or_else (VNum (reserveRMB p))
                                            (VNum (of_Z 0))))
                         (ratio (App.mdtgPrepayOf (VNum (reserveRMB p))
                                   (Some (mdtg (rules evt)))))
                else of_Z 0)).
  rewrite add_zero_l, sum_filter.
  f_equal. f_equal. apply map_ext. intros p.
  unfold required_prepay, declared_budget.
  now rewrite or_else_number, <- mdtgPrepayOf_budget_of.
Qed.

Lemma totalReserveRMB_sum (evt : Event) :
  totalReserveRMB (App.calcStats evt)
  = round_2dp (sum (map declared_budget (participants evt))).
Proof.
  unfold App.calcStats. cbv zeta. cbn [totalReserveRMB].
  rewrite round_times_100.
  rewrite (reduce_add_sum
             (fun p => or_number (ToNumber (VNum (reserveRMB p)))
                                 (of_Z 0))).
  rewrite add_zero_l. f_equal. f_equal. apply map_ext. intros p.
  apply coerced_budget.
Qed.

(** The scenario of the specification, evaluated. *)
Lemma scenario_rates :
  map (fun p => App.mdtgRateOf (VNum (reserveRMB p))
                  (Some (mdtg (rules scenario_event))))
      (participants scenario_event)
  = [of_Q 6.5; of_Q 6.3; of_Q 6.0].
Proof. reflexivity. Qed.

Lemma scenario_prepay :
  map (fun p => App.mdtgPrepayOf (VNum (reserveRMB p))
                  (Some (mdtg (rules scenario_event))))
      (participants scenario_event)
  = [ {| type := "deposit"; ratio := of_Q 0.3 |};
      {| type := "deposit"; ratio := of_Q 0.5 |};
      {| type := "full"; ratio := of_Q 1.0 |} ].
Proof. reflexivity. Qed.

Lemma scenario_required :
  required_prepay App.DEFAULT_MDTG_RULES p200 = of_Z 60
  /\ required_prepay App.DEFAULT_MDTG_RULES p400 = of_Z 200
  /\ required_prepay App.DEFAULT_MDTG_RULES p600 = of_Z 600.
Proof. repeat split; number_compute. Qed.

Lemma scenario_stats :
  count (App.calcStats scenario_event) = 3%nat
  /\ activeCount (App.calcStats scenario_event) = 3%nat
  /\ totalReserveRMB (App.calcStats scenario_event) = of_Z 1200
  /\ collectedPrepayRMB (App.calcStats scenario_event) = of_Z 660
  /\ App.EventDetail_progress scenario_event = of_Z 50.
Proof. repeat split; number_compute. Qed.

Lemma empty_event_stats :
  count (App.calcStats empty_event) = 0%nat
  /\ activeCount (App.calcStats empty_event) = 0%nat
  /\ totalReserveRMB (App.calcStats empty_event) = of_Z 0
  /\ collectedPrepayRMB (App.calcStats empty_event) = of_Z 0.
Proof. repeat split; number_compute. Qed.

(** ** The quorum progress *)

Lemma le_Fin (p q : Qc) : le (Fin p) (Fin q) = true <-> (this p <= this q)%Q.
Proof.
  unfold le, JS.compare, Qccompare.
  destruct (Qcompare_spec (this p) (this q)); split; intros;
    try reflexivity; try discriminate; lra.
Qed.

Lemma lt_Fin (p q : Qc) : lt (Fin p) (Fin q) = true <-> (this p < this q)%Q.
Proof.
  unfold lt, JS.compare, Qccompare.
  destruct (Qcompare_spec (this p) (this q)); split; intros;
    try reflexivity; try discriminate; lra.
Qed.

Lemma lt_Fin_false (p q : Qc) :
  lt (Fin p) (Fin q) = false <-> (this q <= this p)%Q.
Proof.
  unfold lt, JS.compare, Qccompare.
  destruct (Qcompare_spec (this p) (this q)); split; intros;
    try reflexivity; try discriminate; lra.
Qed.







(** ** The figures in the engine's arithmetic

    The aggregator and the progress bar on doubles ([App64]): what
    [calcStats] returns and what [ProgressBar] shows, rounding
    included. *)
Section Figures.

Import Binary64 App64 Spec64.

(** *** What rounding returns *)

Lemma iter_pos_invariant {A : Type} (P : A -> Prop) (f : A -> A) :
  (forall x, P x -> P (f x)) ->
  forall (n : positive) (x : A), P x -> P (iter_pos f n x).
Proof.
  intros Hf. induction n as [n IH|n IH|]; intros x Hx; simpl.
  - apply IH, IH, Hf, Hx.
  - apply IH, IH, Hx.
  - apply Hf, Hx.
Qed.

Lemma shr_1_nonneg (mrs : shr_record) :
  (0 <= shr_m mrs)%Z -> (0 <= shr_m (shr_1 mrs))%Z.
Proof.
  destruct mrs as [m r s]. simpl.
  destruct m as [|[p|p|]|[p|p|]]; simpl; lia.
Qed.

Lemma shr_nonneg (mrs : shr_record) (e n : Z) :
  (0 <= shr_m mrs)%Z -> (0 <= shr_m (fst (shr mrs e n)))%Z.
Proof.
  intros H. destruct n as [|p|p]; simpl; try exact H.
  apply (iter_pos_invariant (fun x => (0 <= shr_m x)%Z)); [|exact H].
  exact shr_1_nonneg.
Qed.

Lemma shr_record_of_loc_m (m : Z) (l : SpecFloat.location) :
  shr_m (shr_record_of_loc m l) = m.
Proof. destruct l as [|[]]; reflexivity. Qed.

Lemma shr_fexp_nonneg (m e : Z) (l : SpecFloat.location) :
  (0 <= m)%Z -> (0 <= shr_m (fst (shr_fexp prec emax m e l)))%Z.
Proof.
  intros H. unfold shr_fexp. apply shr_nonneg.
  now rewrite shr_record_of_loc_m.
Qed.

Lemma round_nearest_even_nonneg (m : Z) (l : SpecFloat.location) :
  (0 <= m)%Z -> (0 <= round_nearest_even m l)%Z.
Proof.
  intros H. destruct l as [|[]]; simpl; try lia.
  destruct (Z.even m); lia.
Qed.

(** Rounding a mantissa that is not negative never gives [NaN], and
    gives the sign asked for. *)
Lemma binary_round_aux_sign (s : bool) (m e : Z) (l : SpecFloat.location) :
  (0 <= m)%Z -> has_sign s (binary_round_aux prec emax s m e l).
Proof.
  intros H. unfold binary_round_aux.
  pose proof (shr_fexp_nonneg m e l H) as H1.
  destruct (shr_fexp prec emax m e l) as [mrs' e'].
  simpl in H1.
  pose proof (shr_fexp_nonneg _ e' loc_Exact
                (round_nearest_even_nonneg _ (loc_of_shr_record mrs') H1))
    as H2.
  destruct (shr_fexp prec emax
              (round_nearest_even (shr_m mrs') (loc_of_shr_record mrs'))
              e' loc_Exact) as [mrs'' e''].
  simpl in H2.
  destruct (shr_m mrs'') as [|p|p].
  - reflexivity.
  - destruct (e'' <=? emax - prec)%Z; reflexivity.
  - lia.
Qed.

Lemma binary_round_sign (s : bool) (m : positive) (e : Z) :
  has_sign s (binary_round prec emax s m e).
Proof.
  unfold binary_round.
  destruct (shl_align m e (fexp prec emax (Z.pos (digits2_pos m) + e)))
    as [mz ez].
  apply binary_round_aux_sign. apply Pos2Z.is_nonneg.
Qed.

Lemma of_Z_sign (z : Z) : (0 <= z)%Z -> has_sign false (of_Z z).
Proof.
  intros H. unfold of_Z, binary_normalize.
  destruct z as [|p|p]; [reflexivity|apply binary_round_sign|lia].
Qed.

Lemma of_nat_sign (a : nat) : has_sign false (of_nat a).
Proof. apply of_Z_sign, Nat2Z.is_nonneg. Qed.

Lemma binary_round_aux_sign_clear (m e : Z) (l : SpecFloat.location) :
  sign_clear (binary_round_aux prec emax false m e l).
Proof.
  unfold binary_round_aux.
  destruct (shr_fexp prec emax m e l) as [mrs' e'].
  destruct (shr_fexp prec emax
              (round_nearest_even (shr_m mrs') (loc_of_shr_record mrs'))
              e' loc_Exact) as [mrs'' e''].
  destruct (shr_m mrs'') as [|p|p]; try exact I; try reflexivity.
  destruct (e'' <=? emax - prec)%Z; reflexivity.
Qed.

Lemma has_sign_clear (x : number) : has_sign false x -> sign_clear x.
Proof. destruct x; simpl; auto. Qed.

Lemma div_sign_clear (x y : number) :
  sign_clear x -> sign_clear y -> sign_clear (div x y).
Proof.
  destruct x as [s|s| |s m e], y as [t|t| |t n f]; simpl;
    intros Hx Hy; subst; try exact I; try reflexivity.
  destruct (SFdiv_core_binary prec emax (Z.pos m) e (Z.pos n) f)
    as [[mz ez] lz].
  apply binary_round_aux_sign_clear.
Qed.

Lemma mul_sign_clear (x y : number) :
  sign_clear x -> sign_clear y -> sign_clear (mul x y).
Proof.
  destruct x as [s|s| |s m e], y as [t|t| |t n f]; simpl;
    intros Hx Hy; subst; try exact I; try reflexivity.
  apply binary_round_aux_sign_clear.
Qed.

Lemma Math_round_sign_clear (x : number) :
  sign_clear x -> sign_clear (Math_round x).
Proof.
  destruct x as [s|s| |s m e]; intros Hx; try exact Hx.
  simpl in Hx. subst s. unfold Math_round.
  destruct (0 <=? e)%Z; [reflexivity|].
  change (cond_Zopp false (Z.pos m)) with (Z.pos m).
  assert (0 <= (Z.pos m * 2 + 2 ^ (- e)) / 2 ^ (1 - e))%Z as H.
  { apply Z_div_nonneg_nonneg.
    - pose proof (Z.pow_nonneg 2 (- e)). lia.
    - apply Z.pow_nonneg. lia. }
  destruct ((Z.pos m * 2 + 2 ^ (- e)) / 2 ^ (1 - e))%Z as [|p|p].
  - reflexivity.
  - apply has_sign_clear, of_Z_sign. lia.
  - lia.
Qed.

Lemma Math_min_100_sign_clear (x : number) :
  sign_clear x -> sign_clear (Math_min (of_Z 100) x).
Proof.
  destruct x as [s|s| |s m e]; intros Hx; try exact I; simpl in Hx; subst s;
    try exact eq_refl.
  unfold Math_min.
  destruct (SFcompare (of_Z 100) (S754_finite false m e)) as [[]|];
    try exact I; exact eq_refl.
Qed.

Lemma Math_max_zero_sign_clear (x : number) :
  sign_clear x -> Math_max (of_Z 0) x = x.
Proof.
  destruct x as [s|s| |s m e]; intros Hx; try exact eq_refl;
    simpl in Hx; subst s; exact eq_refl.
Qed.

(** *** No underflow to zero in a sum *)
















(** *** The aggregator *)



Lemma or_number_budget_of (x : value) :
  or_number (ToNumber x) (of_Z 0) = Spec64.budget_of x.
Proof.
  unfold or_number, Spec64.budget_of. destruct (ToNumber x); reflexivity.
Qed.

Lemma budget_of_coerced (x : value) :
  Spec64.budget_of (VNum (Spec64.budget_of x)) = Spec64.budget_of x.
Proof.
  unfold Spec64.budget_of. simpl. destruct (ToNumber x); reflexivity.
Qed.


Lemma binary64_mdtgRateOf_budget_of (x : value) (rs : option Rules) :
  mdtgRateOf x rs = mdtgRateOf (VNum (Spec64.budget_of x)) rs.
Proof.
  unfold mdtgRateOf.
  now rewrite !or_number_budget_of, budget_of_coerced.
Qed.






(** The scenario of the specification and the event without
    participants, evaluated on doubles. *)
Lemma binary64_scenario_stats :
  calcStats Spec64.scenario_event
  = {| count := 3; activeCount := 3; totalReserveRMB := of_Z 1200;
       collectedPrepayRMB := of_Z 660 |}
  /\ calcStats (Spec64.event_of "e0" (VNum (of_Z 6)) [])
     = {| count := 0; activeCount := 0; totalReserveRMB := zero;
          collectedPrepayRMB := zero |}.
Proof. split; vm_compute; reflexivity. Qed.

(** Rounding is that of the engine: the prepayment of a collected budget
    of 3.35 is 30% of it, the double below 1.005, and comes out as 1. *)
Lemma calcStats_small_budget :
  collectedPrepayRMB (calcStats Spec64.small_budget_event) = of_Z 1.
Proof. vm_compute. reflexivity. Qed.

(** The total is a sum from left to right, and depends on the order of
    the participants: the budgets 0.1, 0.2 and 0.705 total 1 in this
    order and 1.01 in the opposite one. *)
Lemma totalReserveRMB_order :
  totalReserveRMB (calcStats Spec64.ascending_event) = of_Z 1
  /\ totalReserveRMB (calcStats Spec64.descending_event) = of_Q 1.01.
Proof. split; vm_compute; reflexivity. Qed.

(** *** The quorum progress *)

(** [x || 0] on a count. *)
Lemma or_else_zero (x : number) :
  has_sign false x -> ToNumber (or_else (VNum x) (VNum (of_Z 0))) = x.
Proof.
  destruct x as [s|s|  |s m e]; simpl; intros H; subst; try reflexivity.
  contradiction.
Qed.

Lemma or_else_one (threshold : option number) :
  ToNumber (or_else (Spec64.threshold_value threshold) (VNum (of_Z 1)))
  = Spec64.quorum_denominator threshold.
Proof. destruct threshold as [[s|s| |s m e]|]; reflexivity. Qed.

Lemma binary64_pct_unfold (a : nat) (threshold : option number) :
  ProgressBar_pct (VNum (of_nat a)) (Spec64.threshold_value threshold)
  = Math_max (of_Z 0) (Spec64.quorum_progress a threshold).
Proof.
  unfold ProgressBar_pct, Spec64.quorum_progress.
  now rewrite (or_else_zero _ (of_nat_sign a)), or_else_one.
Qed.

Lemma binary64_pct_zero (threshold : option number) :
  Math_max (of_Z 0) (Spec64.quorum_progress 0 threshold) = zero.
Proof.
  destruct threshold as [[[]|[]| |[] m e]|]; reflexivity.
Qed.

Lemma quorum_denominator_sign_clear (threshold : option number) :
  (forall n : number, threshold = Some n -> lt n zero = false) ->
  sign_clear (Spec64.quorum_denominator threshold).
Proof.
  intros H. destruct threshold as [[s|s| |s m e]|]; try reflexivity.
  - destruct s; [|reflexivity]. specialize (H _ eq_refl). discriminate.
  - destruct s; [|reflexivity]. specialize (H _ eq_refl). discriminate.
Qed.

Lemma quorum_progress_sign_clear (a : nat) (threshold : option number) :
  (forall n : number, threshold = Some n -> lt n zero = false) ->
  Math_max (of_Z 0) (Spec64.quorum_progress a threshold)
  = Spec64.quorum_progress a threshold.
Proof.
  intros H. apply Math_max_zero_sign_clear.
  unfold Spec64.quorum_progress.
  apply Math_min_100_sign_clear, Math_round_sign_clear, mul_sign_clear;
    [|reflexivity].
  apply div_sign_clear.
  - apply has_sign_clear, of_nat_sign.
  - now apply quorum_denominator_sign_clear.
Qed.

(** C5, as the code has it.  The percentage is total and is
    [max(0, min(100, round(activeCount / d * 100)))], each operation
    being that of the engine, where [d] is the threshold when that is a
    number other than a zero and [NaN], and 1 when it is a zero, [NaN] or
    missing; [d] is neither a zero nor [NaN]; with no participant the
    progress is 0; and when the threshold is not negative the outer
    [max] changes nothing. *)
Theorem ProgressBar_pct_total (a : nat) (threshold : option number) :
  ProgressBar_pct (VNum (of_nat a)) (Spec64.threshold_value threshold)
  = Math_max (of_Z 0) (Spec64.quorum_progress a threshold)
  /\ truthy_number (Spec64.quorum_denominator threshold) = true
  /\ ProgressBar_pct (VNum (of_nat 0)) (Spec64.threshold_value threshold)
     = zero
  /\ (forall evt : Event,
        participants evt = [] ->
        headcount (thresholds evt) = Spec64.threshold_value threshold ->
        EventDetail_progress evt = zero)
  /\ ((forall n : number, threshold = Some n -> lt n zero = false) ->
      ProgressBar_pct (VNum (of_nat a)) (Spec64.threshold_value threshold)
      = Spec64.quorum_progress a threshold).
Proof.
  split; [apply binary64_pct_unfold|].
  split; [destruct threshold as [[s|s| |s m e]|]; reflexivity|].
  assert (ProgressBar_pct (VNum (of_nat 0))
            (Spec64.threshold_value threshold) = zero) as H0.
  { rewrite binary64_pct_unfold. apply binary64_pct_zero. }
  split; [exact H0|]. split.
  - intros evt Hps Hth. unfold EventDetail_progress, calcStats.
    cbv zeta. cbn [activeCount]. rewrite Hps, Hth. exact H0.
  - intros H. rewrite binary64_pct_unfold.
    now apply quorum_progress_sign_clear.
Qed.

(** C5 on the event without participants, and at 3 active participants
    for the threshold 6. *)
Lemma ProgressBar_pct_total_witness :
  EventDetail_progress (Spec64.event_of "e0" (VNum (of_Z 6)) []) = zero
  /\ ProgressBar_pct (VNum (of_nat 3)) (VNum (of_Z 6))
     = Spec64.quorum_progress 3 (Some (of_Z 6)).
Proof.
  split.
  - apply (proj1 (proj2 (proj2 (proj2
             (ProgressBar_pct_total 0 (Some (of_Z 6))))))
             (Spec64.event_of "e0" (VNum (of_Z 6)) [])); reflexivity.
  - apply (proj2 (proj2 (proj2 (proj2
             (ProgressBar_pct_total 3 (Some (of_Z 6))))))).
    intros n H. injection H as <-. reflexivity.
Defined.

(** C5 as stated fails: with 3 active participants and the threshold -6
    the stated formula gives -50, the code gives 0. *)
Lemma ProgressBar_pct_negative_threshold :
  Spec64.quorum_progress 3 (Some (of_Z (-6))) = of_Z (-50)
  /\ ProgressBar_pct (VNum (of_nat 3)) (VNum (of_Z (-6))) = zero
  /\ ProgressBar_pct (VNum (of_nat 3))
       (Spec64.threshold_value (Some (of_Z (-6))))
     <> Spec64.quorum_progress 3 (Some (of_Z (-6))).
Proof.
  split; [vm_compute; reflexivity|].
  split; [vm_compute; reflexivity|].
  vm_compute. discriminate.
Qed.

(** The percentages are those of the engine: 3 of 6 is 50, and 23 of 40
    is 57, since [23 / 40 * 100] is the double below 57.5. *)
Lemma binary64_progress_values :
  EventDetail_progress Spec64.scenario_event = of_Z 50
  /\ ProgressBar_pct (VNum (of_nat 23)) (VNum (of_Z 40)) = of_Z 57
  /\ lt (mul (div (of_nat 23) (of_Z 40)) (of_Z 100)) (of_Q 57.5) = true.
Proof. repeat split; vm_compute; reflexivity. Qed.

End Figures.

(** ** The CSV field serializer *)

Lemma prefix_empty (s : string) : String.prefix "" s = true.
Proof. destruct s; reflexivity. Qed.

Lemma includes_char (c : ascii) (s : string) :
  includes s (String c "") = contains_char c s.
Proof.
  induction s as [|d s IH]; [reflexivity|].
  cbn [includes contains_char String.prefix].
  destruct (ascii_dec c d) as [E|E].
  - subst d. now rewrite Ascii.eqb_refl, prefix_empty.
  - rewrite IH.
    assert (Ascii.eqb d c = false) as ->; [|reflexivity].
    apply Ascii.eqb_neq. congruence.
Qed.

Lemma replaceAll_quote (s : string) :
  replaceAll s (String quote_char "")
             (String quote_char (String quote_char ""))
  = double_quotes s.
Proof.
  unfold replaceAll. induction s as [|c s IH]; [reflexivity|].
  cbn [replaceAll_from double_quotes String.prefix String.length Nat.sub
       String.append].
  destruct (ascii_dec quote_char c) as [E|E].
  - subst c. rewrite Ascii.eqb_refl, prefix_empty. now rewrite IH.
  - assert (Ascii.eqb c quote_char = false) as ->.
    { apply Ascii.eqb_neq. congruence. }
    now rewrite IH.
Qed.

(** The variant of [src/src/src/App.jsx] serializes a field as the
    specification says, for every string. *)
Lemma SrcApp_safeCSV_csv_field (s : string) :
  SrcApp.safeCSV (Some s) = csv_field s.
Proof.
  unfold SrcApp.safeCSV, csv_field, needs_quoting.
  now rewrite !includes_char, replaceAll_quote.
Qed.

(** Both directions of C7, in its words, for that variant. *)
Lemma SrcApp_safeCSV_iff (s : string) :
  (needs_quoting s = true ->
   SrcApp.safeCSV (Some s)
   = String quote_char (double_quotes s ++ String quote_char ""))
  /\ (needs_quoting s = false -> SrcApp.safeCSV (Some s) = s).
Proof.
  rewrite SrcApp_safeCSV_csv_field. unfold csv_field.
  split; intros ->; reflexivity.
Qed.

(** C7 does not hold of [safeCSV] in [src/src/App.jsx]: the text of its own
    self-test contains a line feed and is returned unquoted, where the
    specification (and the other variant) wraps it in double quotes. *)
Theorem safeCSV_newline_unquoted :
  contains_char newline_char multi_line = true
  /\ App.safeCSV (Some multi_line) = multi_line
  /\ csv_field multi_line
     = String quote_char (multi_line ++ String quote_char "")
  /\ SrcApp.safeCSV (Some multi_line) = csv_field multi_line.
Proof. repeat split. Qed.

(** The same variant quotes a text that holds a backslash followed by
    [n], although it has no comma, quote or line feed. *)
Lemma safeCSV_backslash_n_quoted :
  needs_quoting (String "a" (String backslash_char "nb")) = false
  /\ App.safeCSV (Some (String "a" (String backslash_char "nb")))
     = String quote_char
         (String "a" (String backslash_char "nb") ++ String quote_char "").
Proof. split; reflexivity. Qed.

(** ** The backup import *)

Section BackupFacts.

Variable JSON_parse : string -> json + string.

Lemma importJSON_onload_rejected (text message : string) (w : App.Page) :
  JSON_parse text = inr message ->
  App.importJSON_onload JSON_parse (Some text) w
  = App.try_finally (App.alert ("导入失败：" ++ message))
                    App.reset_fileInput w.
Proof.
  intros H.
  unfold App.importJSON_onload, App.try_finally, App.try_catch, App.bind,
    App.JSON_parse_action.
  rewrite H. reflexivity.
Qed.

Lemma importJSON_onload_parsed (text : string) (obj : json) (w : App.Page) :
  JSON_parse text = inl obj ->
  App.importJSON_onload JSON_parse (Some text) w
  = App.try_finally
      (if json_truthy (optional_get obj "events")
       then App.setData obj
       else App.alert ("导入失败：" ++ "格式不正确"))
      App.reset_fileInput w.
Proof.
  intros H.
  unfold App.importJSON_onload, App.try_finally, App.try_catch, App.bind,
    App.JSON_parse_action.
  rewrite H. simpl.
  destruct (json_truthy (optional_get obj "events")); reflexivity.
Qed.

Lemma reset_fileInput_keeps (w : App.Page) :
  fst (App.reset_fileInput w) = Normal tt
  /\ App.data (snd (App.reset_fileInput w)) = App.data w
  /\ App.alerts (snd (App.reset_fileInput w)) = App.alerts w.
Proof.
  unfold App.reset_fileInput. destruct (App.fileInput w); repeat split.
Qed.

End BackupFacts.

(** C8. Importing a backup is atomic on failure: when the text does not
    parse, or parses to a value without a truthy [events] field, the
    store is left as it was and one message is shown to the user;
    otherwise the store becomes the parsed object and nothing is shown.
    The handler itself never throws, and without a file nothing
    happens. *)
Theorem importJSON_atomic (JSON_parse : string -> json + string)
  (text : string) (w : App.Page) :
  (forall message : string,
      JSON_parse text = inr message ->
      App.data (page_after_import JSON_parse text w) = App.data w
      /\ App.alerts (page_after_import JSON_parse text w)
         = (App.alerts w ++ [("导入失败：" ++ message)%string])%list)
  /\ (forall obj : json,
        JSON_parse text = inl obj ->
        json_truthy (optional_get obj "events") = false ->
        App.data (page_after_import JSON_parse text w) = App.data w
        /\ App.alerts (page_after_import JSON_parse text w)
           = (App.alerts w ++ ["导入失败：格式不正确"])%list)
  /\ (forall obj : json,
        JSON_parse text = inl obj ->
        json_truthy (optional_get obj "events") = true ->
        App.data (page_after_import JSON_parse text w) = obj
        /\ App.alerts (page_after_import JSON_parse text w) = App.alerts w)
  /\ fst (App.importJSON JSON_parse (Some text) w) = Normal tt
  /\ App.importJSON JSON_parse None w = (Normal tt, w).
Proof.
  unfold page_after_import, App.importJSON.
  split; [|split; [|split; [|split]]].
  - intros message H.
    rewrite (importJSON_onload_rejected JSON_parse text message w H).
    unfold App.try_finally, App.alert, App.reset_fileInput. simpl.
    destruct (App.fileInput w); split; reflexivity.
  - intros obj H Hev.
    rewrite (importJSON_onload_parsed JSON_parse text obj w H), Hev.
    unfold App.try_finally, App.alert, App.reset_fileInput. simpl.
    destruct (App.fileInput w); split; reflexivity.
  - intros obj H Hev.
    rewrite (importJSON_onload_parsed JSON_parse text obj w H), Hev.
    unfold App.try_finally, App.setData, App.reset_fileInput. simpl.
    destruct (App.fileInput w); split; reflexivity.
  - destruct (JSON_parse text) as [obj|message] eqn:H.
    + rewrite (importJSON_onload_parsed JSON_parse text obj w H).
      unfold App.try_finally, App.setData, App.alert, App.reset_fileInput.
      destruct (json_truthy (optional_get obj "events")); simpl;
        destruct (App.fileInput w); reflexivity.
    + rewrite (importJSON_onload_rejected JSON_parse text message w H).
      unfold App.try_finally, App.alert, App.reset_fileInput. simpl.
      destruct (App.fileInput w); reflexivity.
  - reflexivity.
Qed.

(** C8 on a text that does not parse, on the text [null], and on an
    empty backup. *)
Lemma importJSON_atomic_witness :
  (App.data (page_after_import parse_rejects "{" blank_page)
   = App.data blank_page
   /\ App.alerts (page_after_import parse_rejects "{" blank_page)
      = ["导入失败：Unexpected end of JSON input"])
  /\ (App.data (page_after_import (parse_yields JNull) "null" blank_page)
      = App.data blank_page
      /\ App.alerts (page_after_import (parse_yields JNull) "null" blank_page)
         = ["导入失败：格式不正确"])
  /\ (App.data (page_after_import (parse_yields empty_backup) "{}" blank_page)
      = empty_backup
      /\ App.alerts
           (page_after_import (parse_yields empty_backup) "{}" blank_page)
         = []).
Proof.
  split; [|split].
  - apply (proj1 (importJSON_atomic parse_rejects "{" blank_page)
             "Unexpected end of JSON input").
    reflexivity.
  - apply (proj1 (proj2 (importJSON_atomic (parse_yields JNull) "null"
                           blank_page)) JNull); reflexivity.
  - apply (proj1 (proj2 (proj2
             (importJSON_atomic (parse_yields empty_backup) "{}"
                blank_page))) empty_backup); reflexivity.
Defined.

(** ** Removing an event *)

Lemma filter_without_id (id0 : string) (es : list Event) :
  filter (fun e => negb (String.eqb (id e) id0)) es = without_id id0 es.
Proof.
  induction es as [|e es IH]; [reflexivity|].
  simpl. destruct (String.eqb (id e) id0); simpl; now rewrite IH.
Qed.

Lemma In_without_id (id0 : string) (es : list Event) (e : Event) :
  In e (without_id id0 es) <-> In e es /\ id e <> id0.
Proof.
  rewrite <- filter_without_id, filter_In.
  rewrite negb_true_iff. split; intros [H1 H2]; split; try assumption.
  - now apply String.eqb_neq.
  - now apply String.eqb_neq.
Qed.

(** C9. [removeEvent] leaves the events of every other id, in their
    order, and selects the first of them, or nothing when none is left;
    the new selection does not depend on the previous one. *)
Theorem removeEvent_spec (d : Store) (id0 : string) :
  events (App.removeEvent id0 d) = without_id id0 (events d)
  /\ selectedEventId (App.removeEvent id0 d)
     = first_id (without_id id0 (events d))
  /\ (forall sel : option string,
        App.removeEvent id0
          {| events := events d; selectedEventId := sel |}
        = App.removeEvent id0 d).
Proof.
  unfold App.removeEvent. cbn [events selectedEventId].
  rewrite filter_without_id.
  split; [reflexivity|]. split; [|reflexivity].
  destruct (without_id id0 (events d)); reflexivity.
Qed.

(** Deleting the event [b] while [c] is selected selects [a]. *)
Lemma removeEvent_reselects :
  selectedEventId three_events = Some "c"
  /\ map id (events (App.removeEvent "b" three_events)) = ["a"; "c"]
  /\ selectedEventId (App.removeEvent "b" three_events) = Some "a".
Proof. repeat split. Qed.

Lemma removeEvent_last :
  App.removeEvent "a" {| events := [event_of "a" []];
                         selectedEventId := Some "a" |}
  = {| events := []; selectedEventId := None |}.
Proof. reflexivity. Qed.

(** ** The two variants *)

Lemma mdtgRateOf_loop_agree (n : number) (ts : list Tier) :
  App.mdtgRateOf_loop n ts = SrcApp.mdtgRateOf_loop n ts.
Proof.
  induction ts as [|t ts IH]; [reflexivity|].
  simpl. now rewrite IH.
Qed.

Lemma mdtgPrepayOf_agree (x : value) (rules : option Rules) :
  App.mdtgPrepayOf x rules = SrcApp.mdtgPrepayOf x rules.
Proof. destruct rules; reflexivity. Qed.

Lemma removeEvent_agree (id0 : string) (d : Store) :
  App.removeEvent id0 d = SrcApp.removeEvent id0 d.
Proof. reflexivity. Qed.

(** The serializers of the two files differ on the text of the
    self-test. *)
Lemma safeCSV_variants_differ :
  App.safeCSV (Some multi_line) <> SrcApp.safeCSV (Some multi_line).
Proof. intros H. apply (f_equal String.length) in H. discriminate H. Qed.

(** C10. The two source files implement the same rate resolver, the same
    prepayment resolver and the same aggregator. *)
Theorem variants_agree :
  (forall (x : value) (rules : option Rules),
      App.mdtgRateOf x rules = SrcApp.mdtgRateOf x rules)
  /\ (forall (x : value) (rules : option Rules),
        App.mdtgPrepayOf x rules = SrcApp.mdtgPrepayOf x rules)
  /\ (forall evt : Event, App.calcStats evt = SrcApp.calcStats evt).
Proof.
  split; [|split].
  - intros x rules. unfold App.mdtgRateOf, SrcApp.mdtgRateOf.
    rewrite mdtgRateOf_loop_agree. destruct rules; reflexivity.
  - apply mdtgPrepayOf_agree.
  - intros evt. unfold App.calcStats, SrcApp.calcStats.
    f_equal; f_equal; f_equal; f_equal;
      apply fold_left_ext || reflexivity.
Qed.

(** * Further properties of the code *)

(** ** [clamp] and the inputs it guards *)

Lemma Math_max_ge (n a : number) :
  n <> NaN -> a <> NaN ->
  le a (Math_max n a) = true /\ le n (Math_max n a) = true
  /\ (Math_max n a = n \/ Math_max n a = a).
Proof.
  intros Hn Ha.
  destruct n as [|[]|p], a as [|[]|q]; try contradiction;
    unfold Math_max; number_order; auto.
Qed.

Lemma Math_min_le (x b : number) :
  x <> NaN -> b <> NaN ->
  le (Math_min x b) b = true /\ le (Math_min x b) x = true
  /\ (Math_min x b = x \/ Math_min x b = b).
Proof.
  intros Hx Hb.
  destruct x as [|[]|p], b as [|[]|q]; try contradiction;
    unfold Math_min; number_order; auto.
Qed.

Lemma le_not_NaN (a b : number) : le a b = true -> a <> NaN /\ b <> NaN.
Proof.
  destruct a as [|[]|p], b as [|[]|q]; try discriminate; split; discriminate.
Qed.

Lemma le_trans (a b c : number) :
  le a b = true -> le b c = true -> le a c = true.
Proof.
  destruct a as [|[]|p], b as [|[]|q], c as [|[]|r]; number_order.
Qed.

Lemma le_refl (a : number) : a <> NaN -> le a a = true.
Proof.
  destruct a as [|[]|p]; try contradiction; try reflexivity.
  intros _. apply le_Fin. lra.
Qed.

Lemma clamp_within (n a b : number) :
  le a b = true -> n <> NaN ->
  le a (App.clamp n a b) = true /\ le (App.clamp n a b) b = true.
Proof.
  intros Hab Hn. destruct (le_not_NaN _ _ Hab) as [Ha Hb].
  unfold App.clamp.
  destruct (Math_max_ge n a Hn Ha) as (H1 & _ & H3).
  assert (Math_max n a <> NaN) as Hm by (destruct H3; congruence).
  destruct (Math_min_le (Math_max n a) b Hm Hb) as (H4 & _ & H6).
  split; [|exact H4].
  destruct H6 as [-> | ->]; assumption.
Qed.

Lemma clamp_in_range (n a b : number) :
  le a n = true -> le n b = true -> App.clamp n a b = n.
Proof.
  intros Han Hnb. unfold App.clamp.
  assert (Math_max n a = n) as ->.
  { destruct n as [|[]|p], a as [|[]|q]; try discriminate;
      unfold Math_max; number_order. }
  destruct n as [|[]|p], b as [|[]|q]; try discriminate;
    unfold Math_min; number_order.
Qed.

(** X1. [clamp(n, a, b)] with [a <= b] and [n] a number other than [NaN]
    lies between [a] and [b], and is [n] itself when [n] already does;
    a [NaN] input is not repaired: it comes out as [NaN]. *)
Theorem clamp_spec (n a b : number) :
  (le a b = true -> n <> NaN ->
   le a (App.clamp n a b) = true /\ le (App.clamp n a b) b = true)
  /\ (le a n = true -> le n b = true -> App.clamp n a b = n)
  /\ App.clamp NaN a b = NaN.
Proof.
  split; [apply clamp_within|]. split; [apply clamp_in_range|reflexivity].
Qed.

Lemma clamp_spec_witness :
  (le (of_Z 0) (App.clamp (of_Z 12345) (of_Z 0) (of_Z 999)) = true
   /\ le (App.clamp (of_Z 12345) (of_Z 0) (of_Z 999)) (of_Z 999) = true)
  /\ App.clamp (of_Z 6) (of_Z 0) (of_Z 999) = of_Z 6.
Proof.
  split.
  - apply (proj1 (clamp_spec (of_Z 12345) (of_Z 0) (of_Z 999)));
      [reflexivity|discriminate].
  - apply (proj1 (proj2 (clamp_spec (of_Z 6) (of_Z 0) (of_Z 999))));
      reflexivity.
Defined.

Lemma coerced_not_NaN (x : value) :
  or_number (ToNumber x) (of_Z 0) <> NaN.
Proof.
  rewrite or_number_zero. destruct (ToNumber x); discriminate.
Qed.

(** X2. Whatever text is typed, the head count stored by the new-event
    form is a finite number from 0 to 999, and the budget stored by the
    edit-budget prompt is a finite number from 0 to 9999999: neither is
    ever [NaN], negative or infinite. *)
Theorem clamped_inputs_in_range (text : string) :
  (le (of_Z 0) (App.NewEventModal_headcount text) = true
   /\ le (App.NewEventModal_headcount text) (of_Z 999) = true)
  /\ (le (of_Z 0)
         (App.clamp (or_number (ToNumber (VStr text)) (of_Z 0))
                    (of_Z 0) (of_Z 9999999)) = true
      /\ le (App.clamp (or_number (ToNumber (VStr text)) (of_Z 0))
                       (of_Z 0) (of_Z 9999999))
            (of_Z 9999999) = true).
Proof.
  pose proof (coerced_not_NaN (VStr text)) as Hn.
  split.
  - exact (clamp_within _ (of_Z 0) (of_Z 999) eq_refl Hn).
  - exact (clamp_within _ (of_Z 0) (of_Z 9999999) eq_refl Hn).
Qed.

(** ** The resolvers: monotonicity, bounds and well-formed tiers *)

Lemma ge_negb_lt (a c : number) :
  a <> NaN -> c <> NaN -> ge a c = negb (lt a c).
Proof.
  intros Ha Hc. destruct a as [|[]|p], c as [|[]|q]; try contradiction;
    try reflexivity.
  unfold ge, lt, JS.compare. destruct (p ?= q)%Qc; reflexivity.
Qed.

Lemma contiguous_head (lo : number) (t : Tier) (ts : list Tier) :
  contiguous_from lo (t :: ts) = true -> min t = lo.
Proof.
  simpl. intros H. apply andb_true_iff in H. now apply same_number_eq.
Qed.

Lemma lt_not_NaN_r (a b : number) : lt a b = true -> b <> NaN.
Proof. destruct a as [|[]|p], b as [|[]|q]; discriminate. Qed.

Lemma lt_le (a b : number) : lt a b = true -> le a b = true.
Proof. unfold lt, le. destruct (JS.compare a b) as [[]|]; congruence. Qed.

Lemma contiguous_above (lo : number) (ts : list Tier) (t : Tier) :
  lo <> NaN -> contiguous_from lo ts = true -> In t ts ->
  le lo (min t) = true.
Proof.
  revert lo. induction ts as [|t0 ts IH]; intros lo Hlo H Hin;
    [contradiction|].
  pose proof (contiguous_head lo t0 ts H) as Hmin.
  destruct Hin as [<-|Hin]; [rewrite Hmin; now apply le_refl|].
  simpl in H. apply andb_true_iff in H. destruct H as [_ H].
  destruct (max t0) as [m|], ts as [|t1 ts']; try discriminate;
    try contradiction.
  apply andb_true_iff in H. destruct H as [Hlt Hc].
  apply (le_trans lo m (min t)); [now apply lt_le|].
  apply IH; [exact (lt_not_NaN_r _ _ Hlt)|exact Hc|exact Hin].
Qed.

Lemma tier_matches_min (n : number) (t : Tier) :
  tier_matches n t = true -> le (min t) n = true.
Proof.
  unfold tier_matches. destruct (max t).
  - intros H. apply andb_true_iff in H. tauto.
  - now rewrite le_ge.
Qed.

Lemma contiguous_find (n lo : number) (ts : list Tier) :
  contiguous_from lo ts = true -> ge n lo = true ->
  exists t : Tier,
    find (tier_matches n) ts = Some t
    /\ forall t' : Tier, In t' ts -> tier_matches n t' = true -> t' = t.
Proof.
  revert lo. induction ts as [|t0 ts IH]; intros lo H Hn; [discriminate|].
  pose proof (contiguous_head lo t0 ts H) as Hmin.
  pose proof (ge_not_NaN _ _ Hn) as Nn.
  simpl in H. apply andb_true_iff in H. destruct H as [_ H].
  destruct (max t0) as [m|] eqn:Hmax, ts as [|t1 ts']; try discriminate.
  - apply andb_true_iff in H. destruct H as [Hlt Hc].
    pose proof (lt_not_NaN_r _ _ Hlt) as Nm.
    destruct (lt n m) eqn:Hnm.
    + exists t0. split.
      * cbn [find]. unfold tier_matches at 1.
        now rewrite Hmax, Hmin, le_ge, Hn, Hnm.
      * intros t' [<-|Hin] Hm; [reflexivity|]. exfalso.
        pose proof (contiguous_above m (t1 :: ts') t' Nm Hc Hin) as H1.
        pose proof (tier_matches_min n t' Hm) as H2.
        pose proof (le_trans _ _ _ H1 H2) as H3. rewrite le_ge in H3.
        rewrite (ge_lt_false _ _ H3) in Hnm. discriminate.
    + assert (ge n m = true) as Hge.
      { rewrite (ge_negb_lt n m Nn Nm), Hnm. reflexivity. }
      destruct (IH m Hc Hge) as [t [Hf Hu]].
      exists t. split.
      * cbn [find]. unfold tier_matches at 1.
        rewrite Hmax, Hnm, andb_false_r. exact Hf.
      * intros t' [<-|Hin] Hm; [|now apply Hu].
        unfold tier_matches in Hm. rewrite Hmax, Hnm, andb_false_r in Hm.
        discriminate.
  - exists t0. split.
    + cbn [find]. unfold tier_matches. now rewrite Hmax, Hmin, Hn.
    + intros t' [<-|[]] _. reflexivity.
Qed.

Lemma mdtgRateOf_default_bands_of (b : number) :
  b <> NaN ->
  App.mdtgRateOf (VNum b) None
  = if lt b (of_Z 0) then of_Q 6.0
    else if lt b (of_Z 300) then of_Q 6.5
    else if lt b (of_Z 500) then of_Q 6.3
    else of_Q 6.0.
Proof.
  intros Hb. rewrite mdtgRateOf_default_unfold, (budget_of_number b Hb).
  rewrite !(ge_negb_lt b) by (assumption || discriminate).
  destruct (lt b (of_Z 0)) eqn:H0; simpl.
  - rewrite (lt_le_lt b (of_Z 0) (of_Z 300) H0 eq_refl).
    rewrite (lt_le_lt b (of_Z 0) (of_Z 500) H0 eq_refl). reflexivity.
  - destruct (lt b (of_Z 300)) eqn:H3; simpl; [reflexivity|].
    destruct (lt b (of_Z 500)); reflexivity.
Qed.

(** Comparisons of finite numbers as inequalities of fractions. *)
Ltac to_Q :=
  repeat match goal with
         | H : lt (Fin _) (Fin _) = true |- _ => apply lt_Fin in H
         | H : lt (Fin _) (Fin _) = false |- _ => apply lt_Fin_false in H
         | H : le (Fin _) (Fin _) = true |- _ => apply le_Fin in H
         | H : ge (Fin _) (Fin _) = true |- _ => rewrite <- le_ge in H
         | |- le (Fin _) (Fin _) = true => apply le_Fin
         end;
  unfold of_Z, of_Q in *;
  repeat match goal with
         | H : lt (Fin _) (Fin _) = true |- _ => apply lt_Fin in H
         | H : lt (Fin _) (Fin _) = false |- _ => apply lt_Fin_false in H
         | H : le (Fin _) (Fin _) = true |- _ => apply le_Fin in H
         | H : ge (Fin _) (Fin _) = true |- _ => rewrite <- le_ge in H
         | |- le (Fin _) (Fin _) = true => apply le_Fin
         end;
  rewrite ?this_mult, ?this_Q2Qc in *.

(** X3. On the default tiers a larger budget never gets a better rate:
    for budgets [0 <= a <= b], the rate of [b] is at most the rate of
    [a]. *)
Theorem mdtgRateOf_default_monotone (a b : number) :
  ge a (of_Z 0) = true -> le a b = true ->
  le (App.mdtgRateOf (VNum b) None) (App.mdtgRateOf (VNum a) None) = true.
Proof.
  intros Ha Hab. destruct (le_not_NaN _ _ Hab) as [Na Nb].
  rewrite (mdtgRateOf_default_bands_of a Na),
    (mdtgRateOf_default_bands_of b Nb).
  assert (lt a (of_Z 0) = false) as -> by now apply ge_lt_false.
  assert (lt b (of_Z 0) = false) as ->.
  { apply (ge_le_lt_false b a (of_Z 0)); [now rewrite <- le_ge|].
    now rewrite le_ge. }
  destruct (lt a (of_Z 300)) eqn:A3, (lt a (of_Z 500)) eqn:A5,
    (lt b (of_Z 300)) eqn:B3, (lt b (of_Z 500)) eqn:B5;
    try reflexivity;
    destruct a as [|[]|p], b as [|[]|q]; try discriminate; try contradiction;
    exfalso; to_Q; simpl in *; lra.
Qed.

Lemma mdtgRateOf_default_monotone_witness :
  le (App.mdtgRateOf (VNum (of_Z 450)) None)
     (App.mdtgRateOf (VNum (of_Z 250)) None) = true.
Proof.
  apply (mdtgRateOf_default_monotone (of_Z 250) (of_Z 450)); reflexivity.
Defined.




(** X5. Whatever the tier list and the input, the rate [mdtgRateOf]
    returns is the rate of one of the configured tiers; only the empty
    list yields the built-in 6.0. *)
Theorem mdtgRateOf_rate_of_tier (x : value) (rs : Rules) :
  (tiers rs <> [] ->
   exists t : Tier, In t (tiers rs) /\ App.mdtgRateOf x (Some rs) = rate t)
  /\ (tiers rs = [] -> App.mdtgRateOf x (Some rs) = of_Q 6.0).
Proof.
  unfold App.mdtgRateOf. simpl.
  rewrite coerced_budget, mdtgRateOf_loop_find, at_last_rev. split.
  - intros Hne.
    destruct (find (tier_matches (budget_of x)) (tiers rs)) as [t|] eqn:Hf.
    + exists t. split; [|reflexivity]. now apply find_some in Hf.
    + simpl. destruct (rev (tiers rs)) as [|t l] eqn:Hr.
      * exfalso. apply Hne. apply (f_equal (@rev Tier)) in Hr.
        now rewrite rev_involutive in Hr.
      * exists t. split; [|reflexivity].
        apply in_rev. rewrite Hr. now left.
  - intros ->. reflexivity.
Qed.

Lemma mdtgRateOf_rate_of_tier_witness :
  (exists t : Tier,
      In t (tiers App.DEFAULT_MDTG_RULES)
      /\ App.mdtgRateOf (VNum (of_Z (-5))) (Some App.DEFAULT_MDTG_RULES)
         = rate t)
  /\ App.mdtgRateOf (VNum (of_Z 250))
       (Some {| tiers := [];
                depositPolicy := depositPolicy App.DEFAULT_MDTG_RULES;
                priorityWindowMin := of_Z 30 |})
     = of_Q 6.0.
Proof.
  split.
  - apply (proj1 (mdtgRateOf_rate_of_tier (VNum (of_Z (-5)))
                    App.DEFAULT_MDTG_RULES)).
    discriminate.
  - apply (proj2 (mdtgRateOf_rate_of_tier (VNum (of_Z 250))
                    {| tiers := [];
                       depositPolicy := depositPolicy App.DEFAULT_MDTG_RULES;
                       priorityWindowMin := of_Z 30 |})).
    reflexivity.
Defined.

(** X6. When the tier list covers the budgets from [lo] on without gap or
    overlap, every input whose budget is at least [lo] matches exactly
    one tier, the one [mdtgRateOf] answers with: the last-tier fallback
    is never taken and the order of the scan plays no role. *)
Theorem contiguous_tiers_unique_match (x : value) (rs : Rules) (lo : number) :
  contiguous_from lo (tiers rs) = true ->
  ge (budget_of x) lo = true ->
  exists t : Tier,
    In t (tiers rs)
    /\ tier_matches (budget_of x) t = true
    /\ App.mdtgRateOf x (Some rs) = rate t
    /\ forall t' : Tier,
         In t' (tiers rs) -> tier_matches (budget_of x) t' = true -> t' = t.
Proof.
  intros Hc Hn.
  destruct (contiguous_find (budget_of x) lo (tiers rs) Hc Hn)
    as [t [Hf Hu]].
  exists t. destruct (find_some _ _ Hf) as [Hin Hm].
  split; [exact Hin|]. split; [exact Hm|]. split; [|exact Hu].
  unfold App.mdtgRateOf. simpl.
  now rewrite coerced_budget, mdtgRateOf_loop_find, Hf.
Qed.

Lemma contiguous_tiers_unique_match_witness :
  exists t : Tier,
    In t (tiers App.DEFAULT_MDTG_RULES)
    /\ tier_matches (budget_of (VStr "400")) t = true
    /\ App.mdtgRateOf (VStr "400") (Some App.DEFAULT_MDTG_RULES) = rate t
    /\ forall t' : Tier,
         In t' (tiers App.DEFAULT_MDTG_RULES) ->
         tier_matches (budget_of (VStr "400")) t' = true -> t' = t.
Proof.
  apply (contiguous_tiers_unique_match (VStr "400") App.DEFAULT_MDTG_RULES
           (of_Z 0)); reflexivity.
Defined.

(** ** The store updates *)

Lemma reduce_lengths {A : Type} (f : A -> nat) (xs : list A) (a : nat) :
  fold_left (fun acc x => (acc + f x)%nat) xs a
  = (a + list_sum (map f xs))%nat.
Proof.
  revert a. induction xs as [|x xs IH]; intros a; simpl; [lia|].
  rewrite IH. lia.
Qed.

Lemma totalParticipants_sum (d : Store) :
  App.totalParticipants d
  = list_sum (map (fun e => List.length (participants e)) (events d)).
Proof. unfold App.totalParticipants. now rewrite reduce_lengths. Qed.

Lemma find_id_map (i : string) (es : list Event) :
  option_map id (find (fun e => String.eqb (id e) i) es)
  = find (fun j => String.eqb j i) (map id es).
Proof.
  induction es as [|e es IH]; [reflexivity|].
  simpl. destruct (String.eqb (id e) i); [reflexivity|exact IH].
Qed.

Lemma head_id_map (es : list Event) :
  option_map id (nth_error es 0) = nth_error (map id es) 0.
Proof. destruct es; reflexivity. Qed.

(** The id of the event shown depends on the ids in the store and on the
    selection only. *)
Lemma selectedEvent_id (d : Store) :
  option_map id (App.selectedEvent d)
  = match
      match
        match selectedEventId d with
        | Some s => Some s
        | None => nth_error (map id (events d)) 0
        end
      with
      | Some i => find (fun j => String.eqb j i) (map id (events d))
      | None => None
      end
    with
    | Some j => Some j
    | None => nth_error (map id (events d)) 0
    end.
Proof.
  unfold App.selectedEvent. cbv zeta.
  rewrite <- head_id_map.
  destruct (match selectedEventId d with
            | Some s => Some s
            | None => option_map id (nth_error (events d) 0)
            end) as [i|]; [|reflexivity].
  rewrite <- find_id_map.
  destruct (find (fun e => String.eqb (id e) i) (events d)); reflexivity.
Qed.

Lemma selectedEvent_same_ids (d d' : Store) :
  map id (events d') = map id (events d) ->
  selectedEventId d' = selectedEventId d ->
  option_map id (App.selectedEvent d') = option_map id (App.selectedEvent d).
Proof.
  intros H1 H2. now rewrite !selectedEvent_id, H1, H2.
Qed.

(** X7. [createEvent] puts the new event in front of the others, which
    stay as they are, and makes it the event shown, whatever was
    selected before and even if its id is already in use; the header
    totals grow by one event and by the participants it brings. *)
Theorem createEvent_selected (evt : Event) (d : Store) :
  events (App.createEvent evt d) = evt :: events d
  /\ App.selectedEvent (App.createEvent evt d) = Some evt
  /\ App.totalEvents (App.createEvent evt d) = S (App.totalEvents d)
  /\ App.totalParticipants (App.createEvent evt d)
     = (List.length (participants evt) + App.totalParticipants d)%nat.
Proof.
  split; [reflexivity|]. split.
  - unfold App.selectedEvent, App.createEvent. simpl.
    now rewrite String.eqb_refl.
  - split; [reflexivity|]. rewrite !totalParticipants_sum. reflexivity.
Qed.

Lemma addParticipant_map_ids (genId : nat -> string) (k : nat)
  (evtId : string) (p : App.NewParticipant) (es : list Event) :
  map id (App.addParticipant_map genId k evtId p es) = map id es.
Proof.
  revert k. induction es as [|e es IH]; intros k; [reflexivity|].
  simpl. destruct (String.eqb (id e) evtId); simpl; now rewrite IH.
Qed.

Lemma map_ids_kept (f : Event -> Event) (es : list Event) :
  (forall e : Event, id (f e) = id e) -> map id (map f es) = map id es.
Proof.
  intros H. rewrite map_map. apply map_ext. exact H.
Qed.

(** X8. Adding, updating or removing a participant, and updating an
    event with a patch that has no [id], keep the ids of the events and
    their order, keep [selectedEventId], and so keep the id of the event
    shown. *)
Theorem updates_keep_shown_event (d : Store) (genId : nat -> string)
  (evtId pid : string) (p : App.NewParticipant)
  (patch : App.ParticipantPatch) (epatch : App.EventPatch) :
  same_view d (App.addParticipant genId evtId p d)
  /\ same_view d (App.updateParticipant evtId pid patch d)
  /\ same_view d (App.removeParticipant evtId pid d)
  /\ (App.patch_id epatch = None ->
      same_view d (App.updateEvent evtId epatch d)).
Proof.
  assert (forall d' : Store,
             map id (events d') = map id (events d) ->
             selectedEventId d' = selectedEventId d ->
             same_view d d') as K.
  { intros d' H1 H2. repeat split; try assumption.
    now apply selectedEvent_same_ids. }
  split; [|split; [|split]].
  - apply K; [apply addParticipant_map_ids|reflexivity].
  - apply K; [|reflexivity]. apply map_ids_kept.
    intros e. destruct (String.eqb (id e) evtId); reflexivity.
  - apply K; [|reflexivity]. apply map_ids_kept.
    intros e. destruct (String.eqb (id e) evtId); reflexivity.
  - intros Hp. apply K; [|reflexivity]. apply map_ids_kept.
    intros e. destruct (String.eqb (id e) evtId); [|reflexivity].
    simpl. now rewrite Hp.
Qed.

Lemma updates_keep_shown_event_witness :
  same_view three_events
    (App.updateEvent "b" (name_patch "renamed") three_events).
Proof.
  apply (proj2 (proj2 (proj2
           (updates_keep_shown_event three_events numbered_ids "b" "p200"
              {| App.new_name := "n"; App.new_handle := "";
                 App.new_wish := ""; App.new_reserveRMB := of_Z 0;
                 App.new_depositPaid := false;
                 App.new_prepayType := "deposit";
                 App.new_status := "active"; App.new_note := "" |}
              App.no_patch (name_patch "renamed"))))).
  reflexivity.
Defined.

Lemma set_participants_same (e : Event) :
  App.set_participants e (participants e) = e.
Proof. destruct e; reflexivity. Qed.

Lemma addParticipant_map_absent (genId : nat -> string) (k : nat)
  (evtId : string) (p : App.NewParticipant) (es : list Event) :
  no_event_with evtId es -> App.addParticipant_map genId k evtId p es = es.
Proof.
  intros H. induction es as [|e es IH]; [reflexivity|].
  simpl. assert (String.eqb (id e) evtId = false) as ->.
  { apply String.eqb_neq. apply H. now left. }
  f_equal. apply IH. intros e' Hin. apply H. now right.
Qed.

Lemma addParticipant_map_total (genId : nat -> string) (k : nat)
  (evtId : string) (p : App.NewParticipant) (es : list Event) :
  list_sum (map (fun e => List.length (participants e))
                (App.addParticipant_map genId k evtId p es))
  = (list_sum (map (fun e => List.length (participants e)) es)
     + count_where (fun e => String.eqb (id e) evtId) es)%nat.
Proof.
  revert k. induction es as [|e es IH]; intros k; [reflexivity|].
  simpl. destruct (String.eqb (id e) evtId); simpl; rewrite IH; lia.
Qed.

(** X9. [addParticipant] on an event id that occurs once puts the new
    participant, with the generated id, in front of that event's
    participants and leaves every other event as it is; on an id that
    does not occur it leaves the store unchanged; in general the total
    number of participants grows by the number of events that carry the
    id. *)
Theorem addParticipant_spec (genId : nat -> string) (evtId : string)
  (p : App.NewParticipant) (d : Store) :
  (forall (l1 l2 : list Event) (e : Event),
      events d = (l1 ++ e :: l2)%list -> id e = evtId ->
      no_event_with evtId l1 -> no_event_with evtId l2 ->
      events (App.addParticipant genId evtId p d)
      = (l1 ++ App.set_participants e
                 (App.with_id p (genId 0%nat) :: participants e)
            :: l2)%list)
  /\ (no_event_with evtId (events d) ->
      App.addParticipant genId evtId p d = d)
  /\ App.totalParticipants (App.addParticipant genId evtId p d)
     = (App.totalParticipants d
        + count_where (fun e => String.eqb (id e) evtId) (events d))%nat.
Proof.
  split; [|split].
  - intros l1 l2 e Hev Hid H1 H2. unfold App.addParticipant. simpl.
    rewrite Hev. clear Hev.
    induction l1 as [|e1 l1 IH].
    + simpl. rewrite Hid, String.eqb_refl. f_equal.
      now apply addParticipant_map_absent.
    + simpl. assert (String.eqb (id e1) evtId = false) as ->.
      { apply String.eqb_neq. apply H1. now left. }
      f_equal. apply IH. intros e' Hin. apply H1. now right.
  - intros H. unfold App.addParticipant.
    rewrite (addParticipant_map_absent genId 0 evtId p (events d) H).
    destruct d; reflexivity.
  - rewrite !totalParticipants_sum. apply addParticipant_map_total.
Qed.

Lemma addParticipant_spec_witness :
  events (App.addParticipant numbered_ids "b"
            {| App.new_name := "n"; App.new_handle := "";
               App.new_wish := ""; App.new_reserveRMB := of_Z 250;
               App.new_depositPaid := false;
               App.new_prepayType := "deposit";
               App.new_status := "active"; App.new_note := "" |}
            three_events)
  = [event_of "a" [];
     App.set_participants (event_of "b" [])
       [App.with_id
          {| App.new_name := "n"; App.new_handle := "";
             App.new_wish := ""; App.new_reserveRMB := of_Z 250;
             App.new_depositPaid := false;
             App.new_prepayType := "deposit";
             App.new_status := "active"; App.new_note := "" |}
          "new0"];
     event_of "c" []]
  /\ App.addParticipant numbered_ids "zz"
       {| App.new_name := "n"; App.new_handle := "";
          App.new_wish := ""; App.new_reserveRMB := of_Z 250;
          App.new_depositPaid := false;
          App.new_prepayType := "deposit";
          App.new_status := "active"; App.new_note := "" |}
       three_events
     = three_events.
Proof.
  split.
  - apply (proj1 (addParticipant_spec numbered_ids "b" _ three_events)
             [event_of "a" []] [event_of "c" []] (event_of "b" []));
      try reflexivity.
    + intros e [<-|[]]. discriminate.
    + intros e [<-|[]]. discriminate.
  - apply (proj1 (proj2 (addParticipant_spec numbered_ids "zz" _
                           three_events))).
    intros e [<-|[<-|[<-|[]]]]; discriminate.
Defined.

Lemma filter_all {A : Type} (test : A -> bool) (xs : list A) :
  (forall x : A, In x xs -> test x = true) -> filter test xs = xs.
Proof.
  intros H. induction xs as [|x xs IH]; [reflexivity|].
  simpl. rewrite (H x (or_introl eq_refl)). f_equal.
  apply IH. intros y Hy. apply H. now right.
Qed.

Lemma map_same {A : Type} (f : A -> A) (xs : list A) :
  (forall x : A, In x xs -> f x = x) -> map f xs = xs.
Proof.
  intros H. induction xs as [|x xs IH]; [reflexivity|].
  simpl. rewrite (H x (or_introl eq_refl)). f_equal.
  apply IH. intros y Hy. apply H. now right.
Qed.

(** X10. After [removeParticipant], no event with the given id has a
    participant with the given participant id, while every other
    participant and every other event is still there; when no such
    participant exists the store is unchanged. *)
Theorem removeParticipant_spec (evtId pid : string) (d : Store) :
  no_participant_with evtId pid
    (events (App.removeParticipant evtId pid d))
  /\ (forall (e : Event) (p : Participant),
        In e (events d) -> In p (participants e) ->
        (id e <> evtId \/ participant_id p <> pid) ->
        exists e' : Event,
          In e' (events (App.removeParticipant evtId pid d))
          /\ id e' = id e /\ In p (participants e'))
  /\ (no_participant_with evtId pid (events d) ->
      App.removeParticipant evtId pid d = d).
Proof.
  split; [|split].
  - intros e' p Hin Hid Hp. unfold App.removeParticipant in Hin.
    simpl in Hin. apply in_map_iff in Hin. destruct Hin as [e [He Hin]].
    destruct (String.eqb (id e) evtId) eqn:E.
    + subst e'. simpl in Hp. apply filter_In in Hp. destruct Hp as [_ Hp].
      apply negb_true_iff in Hp. now apply String.eqb_neq.
    + subst e'. apply String.eqb_neq in E. contradiction.
  - intros e p Hin Hp Hor.
    exists (if String.eqb (id e) evtId
            then App.set_participants e
                   (filter (fun p => negb (String.eqb (participant_id p) pid))
                           (participants e))
            else e).
    split.
    + unfold App.removeParticipant. simpl.
      apply (in_map (fun e0 : Event =>
                       if String.eqb (id e0) evtId
                       then App.set_participants e0
                              (filter
                                 (fun p0 =>
                                    negb (String.eqb (participant_id p0) pid))
                                 (participants e0))
                       else e0)). exact Hin.
    + destruct (String.eqb (id e) evtId) eqn:E; [|now split].
      split; [reflexivity|]. simpl. apply filter_In. split; [exact Hp|].
      apply negb_true_iff. apply String.eqb_neq.
      apply String.eqb_eq in E. destruct Hor; [contradiction|assumption].
  - intros H. unfold App.removeParticipant.
    rewrite map_same; [destruct d; reflexivity|].
    intros e Hin. destruct (String.eqb (id e) evtId) eqn:E; [|reflexivity].
    apply String.eqb_eq in E. rewrite filter_all.
    + apply set_participants_same.
    + intros p Hp. apply negb_true_iff. apply String.eqb_neq.
      now apply (H e p).
Qed.

Lemma removeParticipant_spec_witness :
  (exists e' : Event,
      In e' (events (App.removeParticipant "e1" "p200" scenario_store))
      /\ id e' = id scenario_event /\ In p400 (participants e'))
  /\ App.removeParticipant "e1" "nobody" scenario_store = scenario_store.
Proof.
  split.
  - apply (proj1 (proj2 (removeParticipant_spec "e1" "p200" scenario_store))
             scenario_event p400).
    + left. reflexivity.
    + right. left. reflexivity.
    + right. discriminate.
  - apply (proj2 (proj2 (removeParticipant_spec "e1" "nobody"
                           scenario_store))).
    intros e p [<-|[]] _ [<-|[<-|[<-|[]]]]; discriminate.
Defined.

(** *** What a patch leaves alone *)

Lemma map_filter_commute {A : Type} (test : A -> bool) (g : A -> A)
  (xs : list A) :
  (forall x : A, test (g x) = test x) ->
  filter test (map g xs) = map g (filter test xs).
Proof.
  intros H. induction xs as [|x xs IH]; [reflexivity|].
  simpl. rewrite H. destruct (test x); simpl; now rewrite IH.
Qed.

Lemma stats_count_map (e : Event) (g : Participant -> Participant) :
  count (App.calcStats (App.set_participants e (map g (participants e))))
  = count (App.calcStats e).
Proof. unfold App.calcStats. simpl. apply length_map. Qed.

Lemma stats_active_map (e : Event) (g : Participant -> Participant) :
  (forall p : Participant, status (g p) = status p) ->
  activeCount (App.calcStats (App.set_participants e (map g (participants e))))
  = activeCount (App.calcStats e).
Proof.
  intros H. unfold App.calcStats. simpl.
  rewrite (map_filter_commute
             (fun p => String.eqb (status p) "active") g).
  - apply length_map.
  - intros p. now rewrite H.
Qed.

Lemma stats_reserve_map (e : Event) (g : Participant -> Participant) :
  (forall p : Participant, reserveRMB (g p) = reserveRMB p) ->
  totalReserveRMB
    (App.calcStats (App.set_participants e (map g (participants e))))
  = totalReserveRMB (App.calcStats e).
Proof.
  intros H. rewrite !totalReserveRMB_sum. simpl.
  rewrite map_map. f_equal. f_equal. apply map_ext.
  intros p. unfold declared_budget. now rewrite H.
Qed.

Lemma stats_collected_map (e : Event) (g : Participant -> Participant) :
  (forall p : Participant, reserveRMB (g p) = reserveRMB p) ->
  (forall p : Participant, depositPaid (g p) = depositPaid p) ->
  collectedPrepayRMB
    (App.calcStats (App.set_participants e (map g (participants e))))
  = collectedPrepayRMB (App.calcStats e).
Proof.
  intros H1 H2. rewrite !collectedPrepayRMB_sum. simpl.
  rewrite (map_filter_commute depositPaid g _ H2), map_map.
  f_equal. f_equal. apply map_ext.
  intros p. unfold required_prepay, declared_budget. now rewrite H1.
Qed.

Lemma patch_if_kept {A : Type} (f : Participant -> A) (pid : string)
  (patch : App.ParticipantPatch) :
  (forall p : Participant, f (App.patch_participant p patch) = f p) ->
  forall p : Participant,
    f (if String.eqb (participant_id p) pid
       then App.patch_participant p patch else p) = f p.
Proof.
  intros H p. destruct (String.eqb (participant_id p) pid);
    [apply H|reflexivity].
Qed.

(** X11. Changing the status of a participant changes neither the
    number of participants, nor the total budget, nor the collected
    prepayment of any event; ticking or unticking the deposit changes
    neither the two head counts nor the total budget; changing the
    budget changes neither head count. *)
Theorem updateParticipant_frame (evtId pid : string) (d : Store)
  (new_status : string) (checked : bool) (amount : number) :
  map money_figures
      (events (App.updateParticipant evtId pid
                 (App.status_patch new_status) d))
  = map money_figures (events d)
  /\ map deposit_free_figures
         (events (App.updateParticipant evtId pid
                    (App.depositPaid_patch checked) d))
     = map deposit_free_figures (events d)
  /\ map head_counts
         (events (App.updateParticipant evtId pid
                    (App.reserveRMB_patch amount) d))
     = map head_counts (events d).
Proof.
  unfold App.updateParticipant. simpl. rewrite !map_map.
  split; [|split]; apply map_ext; intros e;
    destruct (String.eqb (id e) evtId); try reflexivity.
  - unfold money_figures.
    rewrite stats_count_map, stats_reserve_map, stats_collected_map;
      try reflexivity; apply patch_if_kept; reflexivity.
  - unfold deposit_free_figures.
    rewrite stats_count_map, stats_active_map, stats_reserve_map;
      try reflexivity; apply patch_if_kept; reflexivity.
  - unfold head_counts.
    rewrite stats_count_map, stats_active_map;
      try reflexivity; apply patch_if_kept; reflexivity.
Qed.

(** *** The event shown *)

Lemma find_none_all {A : Type} (test : A -> bool) (xs : list A) :
  (forall x : A, In x xs -> test x = false) -> find test xs = None.
Proof.
  intros H. induction xs as [|x xs IH]; [reflexivity|].
  simpl. rewrite (H x (or_introl eq_refl)). apply IH.
  intros y Hy. apply H. now right.
Qed.

Lemma find_some_exists {A : Type} (test : A -> bool) (xs : list A) (x : A) :
  In x xs -> test x = true -> exists y : A, find test xs = Some y.
Proof.
  intros Hin Hx. destruct (find test xs) as [y|] eqn:E; [now exists y|].
  rewrite (find_none _ _ E x Hin) in Hx. discriminate.
Qed.

(** X12. The event shown is always an event of the store, and there is
    none only when the store has no event; when [selectedEventId] names
    an event of the store, the event shown has that id; when it names
    none, the first event is shown instead. *)
Theorem selectedEvent_spec (d : Store) :
  (App.selectedEvent d = None <-> events d = [])
  /\ (forall e : Event, App.selectedEvent d = Some e -> In e (events d))
  /\ (forall (i : string) (e : Event),
        selectedEventId d = Some i -> In e (events d) -> id e = i ->
        exists e' : Event, App.selectedEvent d = Some e' /\ id e' = i)
  /\ (forall i : string,
        selectedEventId d = Some i -> no_event_with i (events d) ->
        App.selectedEvent d = nth_error (events d) 0).
Proof.
  unfold App.selectedEvent. cbv zeta. split; [|split; [|split]].
  - split.
    + intros H.
      destruct (match
                   match selectedEventId d with
                   | Some s => Some s
                   | None => option_map id (nth_error (events d) 0)
                   end
                 with
                 | Some i => find (fun e => String.eqb (id e) i) (events d)
                 | None => None
                 end); [discriminate|].
      destruct (events d); [reflexivity|discriminate].
    + intros ->. destruct (selectedEventId d); reflexivity.
  - intros e H.
    destruct (match selectedEventId d with
              | Some s => Some s
              | None => option_map id (nth_error (events d) 0)
              end) as [i|].
    + destruct (find (fun e0 => String.eqb (id e0) i) (events d)) as [e0|]
        eqn:Hf.
      * injection H as <-. now apply find_some in Hf.
      * now apply (nth_error_In (events d) 0).
    + now apply (nth_error_In (events d) 0).
  - intros i e Hsel Hin Hid. rewrite Hsel.
    destruct (find_some_exists (fun e0 => String.eqb (id e0) i)
                (events d) e Hin) as [y Hy].
    { now apply String.eqb_eq. }
    rewrite Hy. exists y. split; [reflexivity|].
    apply find_some in Hy. now apply String.eqb_eq.
  - intros i Hsel Hno. rewrite Hsel.
    rewrite find_none_all; [reflexivity|].
    intros e Hin. apply String.eqb_neq. now apply Hno.
Qed.

Lemma selectedEvent_spec_witness :
  App.selectedEvent {| events := []; selectedEventId := Some "c" |} = None
  /\ In (event_of "c" []) (events three_events)
  /\ (exists e' : Event,
        App.selectedEvent three_events = Some e' /\ id e' = "c")
  /\ App.selectedEvent (App.onSelect "gone" three_events)
     = nth_error (events (App.onSelect "gone" three_events)) 0.
Proof.
  split; [|split; [|split]].
  - apply (proj2 (proj1 (selectedEvent_spec
                           {| events := []; selectedEventId := Some "c" |}))).
    reflexivity.
  - apply (proj1 (proj2 (selectedEvent_spec three_events))
             (event_of "c" [])).
    reflexivity.
  - apply (proj1 (proj2 (proj2 (selectedEvent_spec three_events)))
             "c" (event_of "c" [])).
    + reflexivity.
    + right. right. left. reflexivity.
    + reflexivity.
  - apply (proj2 (proj2 (proj2
             (selectedEvent_spec (App.onSelect "gone" three_events))))
             "gone").
    + reflexivity.
    + intros e [<-|[<-|[<-|[]]]]; discriminate.
Defined.

(** X13. After [removeEvent] the event shown is the first event that
    remains, or none when none remains, also when the deleted event was
    not the one shown; no event with the deleted id is left, and every
    event with another id is. *)
Theorem removeEvent_shows_first (id0 : string) (d : Store) :
  App.selectedEvent (App.removeEvent id0 d)
  = nth_error (events (App.removeEvent id0 d)) 0
  /\ no_event_with id0 (events (App.removeEvent id0 d))
  /\ (forall e : Event,
        In e (events d) -> id e <> id0 ->
        In e (events (App.removeEvent id0 d))).
Proof.
  split; [|split].
  - unfold App.selectedEvent, App.removeEvent. cbn [events selectedEventId].
    destruct (filter (fun e => negb (String.eqb (id e) id0)) (events d))
      as [|e es]; [reflexivity|].
    simpl. now rewrite String.eqb_refl.
  - intros e Hin. unfold App.removeEvent in Hin. simpl in Hin.
    rewrite filter_without_id in Hin. now apply In_without_id in Hin.
  - intros e Hin Hid. unfold App.removeEvent. simpl.
    rewrite filter_without_id. now apply In_without_id.
Qed.

Lemma removeEvent_shows_first_witness :
  In (event_of "c" []) (events (App.removeEvent "b" three_events)).
Proof.
  apply (proj2 (proj2 (removeEvent_shows_first "b" three_events))
           (event_of "c" [])).
  - right. right. left. reflexivity.
  - discriminate.
Defined.

(** X14. The mount effect leaves the events alone and, unless
    [selectedEventId] is the empty string, does not change the event
    shown; after it a store that has events has a selection, and running
    it again changes nothing. *)
Theorem select_first_effect_spec (d : Store) :
  events (App.select_first_effect d) = events d
  /\ (selectedEventId d <> Some "" ->
      App.selectedEvent (App.select_first_effect d) = App.selectedEvent d)
  /\ (events d <> [] ->
      exists i : string,
        selectedEventId (App.select_first_effect d) = Some i)
  /\ App.select_first_effect (App.select_first_effect d)
     = App.select_first_effect d.
Proof.
  unfold App.select_first_effect. cbv zeta.
  destruct d as [es sel]. cbn [events selectedEventId].
  destruct sel as [s|].
  - destruct (String.eqb s "") eqn:E.
    + apply String.eqb_eq in E. subst s.
      destruct es as [|e es]; simpl.
      * repeat split; try reflexivity; intros H; contradiction.
      * split; [reflexivity|]. split; [intros H; contradiction|].
        split; [intros _; now exists (id e)|].
        destruct (String.eqb (id e) ""); reflexivity.
    + split; [reflexivity|]. split; [reflexivity|].
      split; [intros _; now exists s|].
      cbn [events selectedEventId]. now rewrite E.
  - destruct es as [|e es]; simpl.
    + repeat split; try reflexivity. intros H. contradiction.
    + split; [reflexivity|]. split.
      * intros _. unfold App.selectedEvent. reflexivity.
      * split; [intros _; now exists (id e)|].
        destruct (String.eqb (id e) ""); reflexivity.
Qed.

Lemma select_first_effect_spec_witness :
  App.selectedEvent
    (App.select_first_effect
       {| events := events three_events; selectedEventId := None |})
  = App.selectedEvent
      {| events := events three_events; selectedEventId := None |}
  /\ exists i : string,
      selectedEventId
        (App.select_first_effect
           {| events := events three_events; selectedEventId := None |})
      = Some i.
Proof.
  split.
  - apply (proj1 (proj2 (select_first_effect_spec
                           {| events := events three_events;
                              selectedEventId := None |}))).
    discriminate.
  - apply (proj1 (proj2 (proj2 (select_first_effect_spec
                                  {| events := events three_events;
                                     selectedEventId := None |})))).
    discriminate.
Defined.

(** ** The forms *)

(** X15. After the edit-budget prompt is answered with any text, every
    participant with the edited id in the events with the edited id has
    a budget from 0 to 9999999; when the prompt is cancelled the store
    is unchanged. *)
Theorem editBudget_in_range (text : string) (evtId pid : string) (d : Store) :
  (forall (e : Event) (p : Participant),
      In e (events (App.ParticipantTable_editBudget (Some text) evtId pid d)) ->
      id e = evtId -> In p (participants e) -> participant_id p = pid ->
      le (of_Z 0) (reserveRMB p) = true
      /\ le (reserveRMB p) (of_Z 9999999) = true)
  /\ App.ParticipantTable_editBudget None evtId pid d = d.
Proof.
  split; [|reflexivity].
  intros e' p Hin Hid Hp Hpid.
  unfold App.ParticipantTable_editBudget, App.updateParticipant in Hin.
  simpl in Hin. apply in_map_iff in Hin. destruct Hin as [e [He Hin]].
  destruct (String.eqb (id e) evtId) eqn:E.
  - subst e'. simpl in Hp. apply in_map_iff in Hp.
    destruct Hp as [p0 [Hp0 _]].
    destruct (String.eqb (participant_id p0) pid) eqn:P.
    + subst p. simpl.
      apply clamp_within; [reflexivity|exact (coerced_not_NaN (VStr text))].
    + subst p. apply String.eqb_neq in P. contradiction.
  - subst e'. apply String.eqb_neq in E. contradiction.
Qed.

Lemma editBudget_in_range_witness :
  le (of_Z 0)
     (reserveRMB
        (App.patch_participant p400
           (App.reserveRMB_patch
              (App.clamp (or_number (ToNumber (VStr "-50")) (of_Z 0))
                         (of_Z 0) (of_Z 9999999))))) = true
  /\ le (reserveRMB
           (App.patch_participant p400
              (App.reserveRMB_patch
                 (App.clamp (or_number (ToNumber (VStr "-50")) (of_Z 0))
                            (of_Z 0) (of_Z 9999999)))))
        (of_Z 9999999) = true.
Proof.
  apply (proj1 (editBudget_in_range "-50" "e1" "p400" scenario_store)
           (App.set_participants scenario_event
              (map (fun p =>
                      if String.eqb (participant_id p) "p400"
                      then App.patch_participant p
                             (App.reserveRMB_patch
                                (App.clamp
                                   (or_number (ToNumber (VStr "-50"))
                                              (of_Z 0))
                                   (of_Z 0) (of_Z 9999999)))
                      else p)
                   (participants scenario_event)))).
  - left. reflexivity.
  - reflexivity.
  - right. left. reflexivity.
  - reflexivity.
Defined.

Lemma stats_cons_unpaid (e : Event) (p : Participant) :
  depositPaid p = false ->
  collectedPrepayRMB
    (App.calcStats (App.set_participants e (p :: participants e)))
  = collectedPrepayRMB (App.calcStats e).
Proof.
  intros H. rewrite !collectedPrepayRMB_sum. simpl. now rewrite H.
Qed.

(** X16. The add-participant form refuses an empty name with a message;
    otherwise the participant it builds is active, has no deposit
    collected, has the coerced budget (never [NaN]; a negative amount is
    kept as typed) and the prepayment type the resolver gives for it;
    once added in front of the event's participants, both head counts
    grow by one and the collected prepayment is unchanged. *)
Theorem AddParticipantForm_submit_spec (evt : Event)
  (form : App.ParticipantForm) (pid : string) :
  (App.form_name form = "" ->
   exists message : string,
     App.AddParticipantForm_submit evt form = inl message)
  /\ (App.form_name form <> "" ->
      exists p : App.NewParticipant,
        App.AddParticipantForm_submit evt form = inr p
        /\ App.new_status p = "active"
        /\ App.new_depositPaid p = false
        /\ App.new_reserveRMB p = budget_of (VStr (App.form_reserveRMB form))
        /\ App.new_reserveRMB p <> NaN
        /\ App.new_prepayType p
           = type (App.mdtgPrepayOf (VStr (App.form_reserveRMB form))
                     (Some (mdtg (rules evt))))
        /\ count (App.calcStats
                    (App.set_participants evt
                       (App.with_id p pid :: participants evt)))
           = S (count (App.calcStats evt))
        /\ activeCount (App.calcStats
                          (App.set_participants evt
                             (App.with_id p pid :: participants evt)))
           = S (activeCount (App.calcStats evt))
        /\ collectedPrepayRMB
             (App.calcStats
                (App.set_participants evt
                   (App.with_id p pid :: participants evt)))
           = collectedPrepayRMB (App.calcStats evt)).
Proof.
  unfold App.AddParticipantForm_submit. cbv zeta. split.
  - intros ->. eexists. reflexivity.
  - intros Hn. apply String.eqb_neq in Hn. rewrite Hn.
    eexists. split; [reflexivity|]. cbn [App.new_status App.new_depositPaid
      App.new_reserveRMB App.new_prepayType].
    split; [reflexivity|]. split; [reflexivity|].
    split; [apply coerced_budget|]. split; [apply coerced_not_NaN|].
    split.
    + rewrite coerced_budget. now rewrite <- mdtgPrepayOf_budget_of.
    + split; [reflexivity|]. split; [reflexivity|].
      now apply stats_cons_unpaid.
Qed.

Lemma AddParticipantForm_submit_spec_witness :
  (exists message : string,
      App.AddParticipantForm_submit scenario_event (participant_form "" "250")
      = inl message)
  /\ exists p : App.NewParticipant,
      App.AddParticipantForm_submit scenario_event
        (participant_form "Lan" "-5") = inr p
      /\ App.new_status p = "active"
      /\ App.new_depositPaid p = false
      /\ App.new_reserveRMB p = budget_of (VStr "-5")
      /\ App.new_reserveRMB p <> NaN
      /\ App.new_prepayType p
         = type (App.mdtgPrepayOf (VStr "-5")
                   (Some (mdtg (rules scenario_event))))
      /\ count (App.calcStats
                  (App.set_participants scenario_event
                     (App.with_id p "new0" :: participants scenario_event)))
         = S (count (App.calcStats scenario_event))
      /\ activeCount (App.calcStats
                        (App.set_participants scenario_event
                           (App.with_id p "new0"
                            :: participants scenario_event)))
         = S (activeCount (App.calcStats scenario_event))
      /\ collectedPrepayRMB
           (App.calcStats
              (App.set_participants scenario_event
                 (App.with_id p "new0" :: participants scenario_event)))
         = collectedPrepayRMB (App.calcStats scenario_event).
Proof.
  split.
  - apply (proj1 (AddParticipantForm_submit_spec scenario_event
                    (participant_form "" "250") "new0")).
    reflexivity.
  - apply (proj2 (AddParticipantForm_submit_spec scenario_event
                    (participant_form "Lan" "-5") "new0")).
    discriminate.
Defined.

(** X17. The new-event form refuses an empty name with a message;
    otherwise it builds an event with the generated id and no
    participant, whose statistics are all zero, and [createEvent] makes
    it the event shown. *)
Theorem NewEventModal_submit_spec (newId : string) (now : number)
  (form : App.EventForm) (d : Store) :
  (App.event_form_name form = "" ->
   exists message : string,
     App.NewEventModal_submit newId now form = inl message)
  /\ (App.event_form_name form <> "" ->
      exists evt : Event,
        App.NewEventModal_submit newId now form = inr evt
        /\ id evt = newId
        /\ participants evt = []
        /\ App.calcStats evt
           = {| count := 0; activeCount := 0; totalReserveRMB := of_Z 0;
                collectedPrepayRMB := of_Z 0 |}
        /\ App.selectedEvent (App.createEvent evt d) = Some evt).
Proof.
  unfold App.NewEventModal_submit. split.
  - intros ->. eexists. reflexivity.
  - intros Hn. apply String.eqb_neq in Hn. rewrite Hn.
    eexists. split; [reflexivity|]. split; [reflexivity|].
    split; [reflexivity|]. split.
    + unfold App.calcStats. simpl. f_equal; number_compute.
    + unfold App.selectedEvent, App.createEvent. simpl.
      now rewrite String.eqb_refl.
Qed.

Lemma NewEventModal_submit_spec_witness :
  (exists message : string,
      App.NewEventModal_submit "id1" (of_Z 0) (event_form "") = inl message)
  /\ exists evt : Event,
      App.NewEventModal_submit "id1" (of_Z 0) (event_form "Ikebukuro")
      = inr evt
      /\ id evt = "id1"
      /\ participants evt = []
      /\ App.calcStats evt
         = {| count := 0; activeCount := 0; totalReserveRMB := of_Z 0;
              collectedPrepayRMB := of_Z 0 |}
      /\ App.selectedEvent (App.createEvent evt three_events) = Some evt.
Proof.
  split.
  - apply (proj1 (NewEventModal_submit_spec "id1" (of_Z 0) (event_form "")
                    three_events)).
    reflexivity.
  - apply (proj2 (NewEventModal_submit_spec "id1" (of_Z 0)
                    (event_form "Ikebukuro") three_events)).
    discriminate.
Defined.

(** ** The CSV field serializer loses nothing *)

Lemma double_quotes_inj (s1 s2 : string) :
  double_quotes s1 = double_quotes s2 -> s1 = s2.
Proof.
  revert s2. induction s1 as [|c1 s1 IH]; intros [|c2 s2]; simpl.
  - reflexivity.
  - destruct (Ascii.eqb c2 quote_char); discriminate.
  - destruct (Ascii.eqb c1 quote_char); discriminate.
  - destruct (Ascii.eqb c1 quote_char) eqn:E1,
      (Ascii.eqb c2 quote_char) eqn:E2; intros H; injection H.
    + intros H'. apply Ascii.eqb_eq in E1, E2. subst.
      f_equal. now apply IH.
    + intros _ <-. rewrite Ascii.eqb_refl in E2. discriminate.
    + intros _ ->. rewrite Ascii.eqb_refl in E1. discriminate.
    + intros H' <-. f_equal. now apply IH.
Qed.

Lemma append_char_inj (c : ascii) (s1 s2 : string) :
  s1 ++ String c "" = s2 ++ String c "" -> s1 = s2.
Proof.
  revert s2. induction s1 as [|c1 s1 IH]; intros [|c2 s2]; simpl; intros H.
  - reflexivity.
  - injection H as _ H. destruct s2; discriminate.
  - injection H as _ H. destruct s1; discriminate.
  - injection H as -> H. f_equal. now apply IH.
Qed.

Lemma contains_char_head (c : ascii) (s : string) :
  contains_char c (String c s) = true.
Proof. simpl. now rewrite Ascii.eqb_refl. Qed.

(** A serializer that quotes at least the fields holding a double quote
    is one to one. *)
Lemma quoting_inj (test : string -> bool) (s1 s2 : string) :
  (forall s : string, contains_char quote_char s = true -> test s = true) ->
  (if test s1
   then String quote_char (double_quotes s1 ++ String quote_char "")
   else s1)
  = (if test s2
     then String quote_char (double_quotes s2 ++ String quote_char "")
     else s2) ->
  s1 = s2.
Proof.
  intros Hq H. destruct (test s1) eqn:T1, (test s2) eqn:T2.
  - injection H as H. apply append_char_inj in H.
    now apply double_quotes_inj.
  - subst s2. rewrite (Hq _ (contains_char_head _ _)) in T2. discriminate.
  - subst s1. rewrite (Hq _ (contains_char_head _ _)) in T1. discriminate.
  - exact H.
Qed.

(** X18. In both files [safeCSV] is one to one: two different texts
    never give the same field, so quoting loses no information (also in
    the variant that misses the line feed). *)
Theorem safeCSV_injective (s1 s2 : string) :
  (App.safeCSV (Some s1) = App.safeCSV (Some s2) -> s1 = s2)
  /\ (SrcApp.safeCSV (Some s1) = SrcApp.safeCSV (Some s2) -> s1 = s2).
Proof.
  split; intros H.
  - unfold App.safeCSV in H. rewrite !replaceAll_quote, !includes_char in H.
    apply (quoting_inj
             (fun s => contains_char "," s || contains_char quote_char s
                       || includes s (String backslash_char "n"))
             s1 s2); [|exact H].
    intros s Hs. now rewrite Hs, orb_true_r.
  - unfold SrcApp.safeCSV in H.
    rewrite !replaceAll_quote, !includes_char in H.
    apply (quoting_inj needs_quoting s1 s2); [|exact H].
    intros s Hs. unfold needs_quoting. now rewrite Hs, orb_true_r.
Qed.

Lemma safeCSV_injective_witness : "a,b" = "a,b".
Proof.
  apply (proj1 (safeCSV_injective "a,b" "a,b")). reflexivity.
Defined.

(** ** Loading the store *)

(** X19. [loadData] never throws, and the application starts from the
    stored text exactly when the storage can be read, holds a non-empty
    text, and that text parses to a truthy value; in every other case it
    starts from the default store.  Unlike the backup import, loading
    does not look for [events]: a stored object without that field is
    taken as the store, where importing the same text is refused. *)
Theorem initial_data_spec (JSON_parse : string -> json + string)
  (getItem : completion (option string)) :
  (forall v : json,
      App.initial_data JSON_parse getItem = Some v
      <-> exists raw : string,
          getItem = Normal (Some raw) /\ raw <> ""
          /\ JSON_parse raw = inl v /\ json_truthy (Some v) = true)
  /\ (forall (raw : string) (props : list (string * json)) (w : App.Page),
        getItem = Normal (Some raw) -> raw <> "" ->
        JSON_parse raw = inl (JObject props) ->
        assoc "events" props = None ->
        App.initial_data JSON_parse getItem = Some (JObject props)
        /\ App.data (page_after_import JSON_parse raw w) = App.data w).
Proof.
  split.
  - intros v. unfold App.initial_data, App.loadData. split.
    + intros H. destruct getItem as [[raw|]|message]; try discriminate.
      destruct (String.eqb raw "") eqn:E; [discriminate|].
      destruct (JSON_parse raw) as [v0|message] eqn:P; [|discriminate].
      destruct (json_truthy (Some v0)) eqn:T; [|discriminate].
      injection H as <-. exists raw. apply String.eqb_neq in E.
      repeat split; assumption.
    + intros [raw [-> [Hne [P T]]]]. apply String.eqb_neq in Hne.
      now rewrite Hne, P, T.
  - intros raw props w -> Hne P Hev. apply String.eqb_neq in Hne. split.
    + unfold App.initial_data, App.loadData. now rewrite Hne, P.
    + unfold page_after_import, App.importJSON.
      rewrite (importJSON_onload_parsed JSON_parse raw _ w P).
      simpl. rewrite Hev. simpl.
      unfold App.try_finally, App.alert, App.reset_fileInput. simpl.
      destruct (App.fileInput w); reflexivity.
Qed.

Lemma initial_data_spec_witness :
  App.initial_data (parse_yields empty_backup) (Normal (Some "{}"))
  = Some empty_backup
  /\ (App.initial_data (parse_yields (JObject [])) (Normal (Some "{}"))
      = Some (JObject [])
      /\ App.data (page_after_import (parse_yields (JObject [])) "{}"
                     blank_page)
         = App.data blank_page).
Proof.
  split.
  - apply (proj2 (proj1 (initial_data_spec (parse_yields empty_backup)
                           (Normal (Some "{}"))) empty_backup)).
    exists "{}". repeat split; try reflexivity. discriminate.
  - apply (proj2 (initial_data_spec (parse_yields (JObject []))
                    (Normal (Some "{}")))
             "{}" [] blank_page); try reflexivity.
    discriminate.
Defined.

(** ** The quick converter

    [QuickCalc] on doubles ([App64]). *)
Section QuickConverter.

Import Binary64 App64 Spec64.

(** On the default tiers the rate is one of the three rates of the
    list. *)
Lemma binary64_default_rates (x : value) :
  mdtgRateOf x (Some DEFAULT_MDTG_RULES) = of_Q 6.5
  \/ mdtgRateOf x (Some DEFAULT_MDTG_RULES) = of_Q 6.3
  \/ mdtgRateOf x (Some DEFAULT_MDTG_RULES) = of_Q 6.0.
Proof.
  unfold mdtgRateOf. cbv zeta.
  set (n := or_number (ToNumber x) (of_Z 0)).
  change (tiers (rules_or_default (Some DEFAULT_MDTG_RULES)))
    with (tiers DEFAULT_MDTG_RULES).
  unfold DEFAULT_MDTG_RULES, tiers, mdtgRateOf_loop, max, min, rate.
  destruct (ge n (of_Z 0) && lt n (of_Z 300)); [now left|].
  destruct (ge n (of_Z 300) && lt n (of_Z 500)); [now right; left|].
  destruct (ge n (of_Z 500)); now right; right.
Qed.

Lemma budget_of_not_NaN (x : value) : Spec64.budget_of x <> NaN.
Proof.
  unfold Spec64.budget_of. destruct (ToNumber x); discriminate.
Qed.

(** A number times a positive finite number is not [NaN]. *)
Lemma mul_positive_not_NaN (x : number) (m : positive) (e : Z) :
  x <> NaN -> mul x (S754_finite false m e) <> NaN.
Proof.
  destruct x as [s|s| |s n f]; intros H; try discriminate.
  - contradiction H. reflexivity.
  - unfold mul, SFmul.
    pose proof (binary_round_aux_sign (xorb s false)
                  (Z.pos (n * m)) (f + e) loc_Exact
                  (Pos2Z.is_nonneg _)) as Hs.
    destruct (binary_round_aux prec emax (xorb s false)
                (Z.pos (n * m)) (f + e) loc_Exact);
      try discriminate.
    contradiction Hs.
Qed.

(** X20. On the default rules the yen amount of the quick converter is
    the product, as the engine rounds it, of the budget and its tier
    rate; it is never [NaN]; for a text that is not a number it is 0. *)
Theorem QuickCalc_jpy_default (rmb : string) :
  QuickCalc_jpy DEFAULT_MDTG_RULES rmb
  = mul (Spec64.budget_of (VStr rmb))
        (mdtgRateOf (VStr rmb) (Some DEFAULT_MDTG_RULES))
  /\ QuickCalc_jpy DEFAULT_MDTG_RULES rmb <> NaN
  /\ (StringToNumber rmb = NaN ->
      QuickCalc_jpy DEFAULT_MDTG_RULES rmb = zero).
Proof.
  unfold QuickCalc_jpy, QuickCalc_rate.
  rewrite or_number_budget_of, <- binary64_mdtgRateOf_budget_of.
  pose proof (budget_of_not_NaN (VStr rmb)) as Hn.
  split; [|split].
  - destruct (binary64_default_rates (VStr rmb)) as [-> | [-> | ->]];
      reflexivity.
  - destruct (binary64_default_rates (VStr rmb)) as [-> | [-> | ->]];
      apply mul_positive_not_NaN, Hn.
  - intros H.
    assert (Spec64.budget_of (VStr rmb) = zero) as Hb.
    { unfold Spec64.budget_of. simpl ToNumber. now rewrite H. }
    rewrite (binary64_mdtgRateOf_budget_of (VStr rmb)), Hb.
    reflexivity.
Qed.

(** X20 at the text [abc]. *)
Lemma QuickCalc_jpy_default_witness :
  QuickCalc_jpy DEFAULT_MDTG_RULES "abc" = zero.
Proof.
  apply (proj2 (proj2 (QuickCalc_jpy_default "abc"))). reflexivity.
Defined.

(** The text [600] behind a no-break space is the number 600: the quick
    converter shows 3600 yen for it. *)
Lemma QuickCalc_jpy_no_break_space :
  QuickCalc_jpy DEFAULT_MDTG_RULES no_break_space_600 = of_Z 3600.
Proof. vm_compute. reflexivity. Qed.

End QuickConverter.

(** ** The progress bar stays in range *)



